(** * Bearer-token verifiers of the MCP resource-server templates

    A shallow embedding of [Auth0TokenVerifier] and [OktaTokenVerifier]
    (python/03-auth-oauth-server/auth.py, python/04-okta-oauth-server/auth.py)
    together with the properties their design document states about them.

    Python values are dynamically typed: a decoded JWT payload is a [dict]
    from claim names to JSON values.  The embedding keeps that: payloads are
    [gmap string json], and every place where the source relies on the run-time
    type of a value (truthiness, [isinstance], a missing attribute, the typed
    fields of [AccessToken]) is written out. *)

From Stdlib Require Import ZArith Ascii String List Bool Lia DecimalString DecimalZ DecimalPos.
From Stdlib Require OrderedTypeEx.
From stdpp Require Import base option list strings gmap sorting.

Local Open Scope string_scope.
Local Open Scope Z_scope.

#[local] Set Warnings "-register-all".

(** ** Python values that a JSON document can decode to *)

(** Numbers are the integers: every numeric claim the verifiers touch
  ([exp]) is a NumericDate in whole epoch seconds. *)
Inductive json : Type :=
  | JNull
  | JBool (b : bool)
  | JNum (n : Z)
  | JStr (s : string)
  | JList (l : list json)
  | JObj (o : gmap string json).

(** A decoded claim set, as [jwt.decode] returns it. *)
Abbreviation payload_t := (gmap string json).

(** [bool(v)]: what [if v] tests. *)
Definition truthy (v : json) : bool :=
  match v with
  | JNull => false
  | JBool b => b
  | JNum n => negb (n =? 0)
  | JStr s => negb (String.eqb s "")
  | JList l => match l with [] => false | _ => true end
  | JObj o => negb (bool_decide (o = ∅))
  end.

(** [isinstance(v, str)] *)
Definition isinstance_str (v : json) : bool :=
  match v with JStr _ => true | _ => false end.

(** [d.get(k, default)] *)
Definition dict_get (d : payload_t) (k : string) (default : json) : json :=
  match d !! k with
  | Some v => v
  | None => default
  end.

(** ** Exceptions

    The classes below all derive from Python's [Exception]; [exn_class]
    names the three classes the verifiers' handlers mention. *)
Inductive exn : Type :=
  | PyJWKClientConnectionError   (* JWKS endpoint unreachable or malformed *)
  | PyJWKClientError             (* no signing key matches the key id *)
  | DecodeError                  (* unparsable token *)
  | InvalidAlgorithmError        (* declared algorithm not allowed *)
  | InvalidSignatureError        (* signature does not verify *)
  | MissingRequiredClaimError (claim : string)
  | InvalidIssuerError
  | InvalidAudienceError
  | ExpiredSignatureError
  | AttributeError (attr : string)
  | ValidationError (field : string)
  | OtherException (msg : string). (* anything unanticipated *)

Inductive exn_class : Type :=
  | ClsExpiredSignatureError
  | ClsInvalidTokenError
  | ClsException.

(** [isinstance(e, cls)], following the class hierarchy of PyJWT:
  [ExpiredSignatureError], [DecodeError], [InvalidAlgorithmError],
  [MissingRequiredClaimError], [InvalidIssuerError] and
  [InvalidAudienceError] derive from [InvalidTokenError];
  [InvalidSignatureError] derives from [DecodeError]; the key-client errors
  derive from [PyJWTError] only. *)
Definition exn_isinstance (e : exn) (c : exn_class) : bool :=
  match c with
  | ClsException => true
  | ClsExpiredSignatureError =>
      match e with ExpiredSignatureError => true | _ => false end
  | ClsInvalidTokenError =>
      match e with
      | DecodeError | InvalidAlgorithmError | InvalidSignatureError
      | MissingRequiredClaimError _ | InvalidIssuerError
      | InvalidAudienceError | ExpiredSignatureError => true
      | _ => false
      end
  end.

(** ** Computations that may raise *)
Inductive result (A : Type) : Type :=
  | Ok (a : A)
  | Raise (e : exn).
Arguments Ok {A} a.
Arguments Raise {A} e.

Definition rbind {A B} (m : result A) (k : A -> result B) : result B :=
  match m with
  | Ok a => k a
  | Raise e => Raise e
  end.

Notation "'let*' x ':=' m 'in' k" := (rbind m (fun x => k))
  (at level 10, x name, m at level 100, k at level 200,
   format "'[v' 'let*'  x  ':='  m  'in' '/' k ']'").

(** [try: body  except c1: h1  except c2: h2 ...]: the first clause whose
  class the exception is an instance of handles it; with no such clause the
  exception propagates. *)
Fixpoint try_except {A} (handlers : list (exn_class * A)) (e : exn) : result A :=
  match handlers with
  | [] => Raise e
  | (c, h) :: rest => if exn_isinstance e c then Ok h else try_except rest e
  end.

Definition try_ {A} (body : result A) (handlers : list (exn_class * A)) : result A :=
  match body with
  | Ok a => Ok a
  | Raise e => try_except handlers e
  end.

(** ** [str.split()] with no separator *)

(** [c.isspace()] for the code points below 256, one per [ascii]. *)
Definition isspace (c : ascii) : bool :=
  let n := N_of_ascii c in
  (((9 <=? n) && (n <=? 13)) || ((28 <=? n) && (n <=? 32))
   || (n =? 133) || (n =? 160))%N.

Definition flush (w : list ascii) (k : list string) : list string :=
  match w with
  | [] => k
  | _ => string_of_list_ascii (rev w) :: k
  end.

(** Runs of whitespace separate words; leading and trailing whitespace
  yields no empty word.  [w] is the word being read, reversed. *)
Fixpoint split_from (w : list ascii) (s : string) : list string :=
  match s with
  | EmptyString => flush w []
  | String c s' =>
      if isspace c then flush w (split_from [] s')
      else split_from (c :: w) s'
  end.

Definition str_split (s : string) : list string := split_from [] s.

(** [v.split()] on an arbitrary value: only [str] has the attribute. *)
Definition py_split (v : json) : result json :=
  match v with
  | JStr s => Ok (JList (JStr <$> str_split s))
  | _ => Raise (AttributeError "split")
  end.

(** ** The collaborators' data *)

(** [PyJWKClient(uri, cache_keys=..., lifespan=...)]: the configuration the
  verifiers hand to the key client. *)
Record PyJWKClient : Type := {
  uri : string;
  cache_keys : bool;
  lifespan : Z
}.

(** Modelled from the spec: [AccessToken] is declared in the MCP SDK, not in
  this repository.  The design document's NormalizedGrant gives its
  attributes: the original token string, a client identifier (string), the
  scope strings and the expiry timestamp in epoch seconds.  The SDK class
  is a typed model: constructing it from a value of another type fails
  with a validation error. *)
Record AccessToken : Type := {
  token : string;
  client_id : string;
  scopes : list string;
  expires_at : option Z
}.

Definition as_str (field : string) (v : json) : result string :=
  match v with
  | JStr s => Ok s
  | _ => Raise (ValidationError field)
  end.

Fixpoint as_str_items (field : string) (l : list json) : result (list string) :=
  match l with
  | [] => Ok []
  | v :: l' =>
      let* s := as_str field v in
      let* ss := as_str_items field l' in
      Ok (s :: ss)
  end.

Definition as_str_list (field : string) (v : json) : result (list string) :=
  match v with
  | JList l => as_str_items field l
  | _ => Raise (ValidationError field)
  end.

Definition as_opt_int (field : string) (v : json) : result (option Z) :=
  match v with
  | JNull => Ok None
  | JNum n => Ok (Some n)
  | _ => Raise (ValidationError field)
  end.

(** [AccessToken(token=..., client_id=..., scopes=..., expires_at=...)] *)
Definition new_AccessToken (tok cid scp exp : json) : result AccessToken :=
  let* t := as_str "token" tok in
  let* c := as_str "client_id" cid in
  let* s := as_str_list "scopes" scp in
  let* e := as_opt_int "expires_at" exp in
  Ok {| token := t; client_id := c; scopes := s; expires_at := e |}.

(** The three [except] clauses both verifiers end with, each
  [return None]. *)
Definition handlers : list (exn_class * option AccessToken) :=
  [ (ClsExpiredSignatureError, None);
    (ClsInvalidTokenError, None);
    (ClsException, None) ].

(** ** python/03-auth-oauth-server/auth.py *)
Module Auth0TokenVerifier.

Record t : Type := {
    issuer : string;
    audience : string;
    algorithms : list string;
    jwks_client : PyJWKClient
  }.

(** [__init__(self, domain, audience)] *)
Definition init (domain audience : string) : t :=
  {| issuer := "https://" +:+ domain +:+ "/";
     audience := audience;
     algorithms := ["RS256"];
     jwks_client :=
       {| uri := "https://" +:+ domain +:+ "/.well-known/jwks.json";
          cache_keys := true;
          lifespan := 3600 |} |}.

Section Verify.
(** The PyJWT entry points the method calls: the key client's
    [get_signing_key_from_jwt] and [jwt.decode] with its keyword
    arguments [algorithms], [issuer], [audience] and the [require]
    option. *)
Context {Key : Type}.
Variable get_signing_key_from_jwt : PyJWKClient -> string -> result Key.
Variable jwt_decode :
  string -> Key -> list string -> string -> string -> list string ->
  result payload_t.

(** The body of the [try] block. *)
Definition verify_token_try (self : t) (tok : string) : result AccessToken :=
  let* signing_key := get_signing_key_from_jwt (jwks_client self) tok in
  let* payload :=
    jwt_decode tok signing_key (algorithms self) (issuer self)
      (audience self) ["exp"; "iss"; "aud"; "sub"] in
  let scope_str := dict_get payload "scope" (JStr "") in
  let* scopes :=
    (if truthy scope_str then py_split scope_str else Ok (JList [])) in
  let client_id := dict_get payload "sub" (JStr "unknown") in
  let expires_at := dict_get payload "exp" JNull in
  new_AccessToken (JStr tok) client_id scopes expires_at.

Definition verify_token (self : t) (tok : string)
  : result (option AccessToken) :=
  try_ (let* a := verify_token_try self tok in Ok (Some a)) handlers.
End Verify.

End Auth0TokenVerifier.

(** ** python/04-okta-oauth-server/auth.py *)
Module OktaTokenVerifier.

Record t : Type := {
    issuer : string;
    audience : string;
    algorithms : list string;
    jwks_client : PyJWKClient
  }.

(** [__init__(self, domain, audience, auth_server_id="default")] *)
Definition init (domain audience auth_server_id : string) : t :=
  {| issuer := "https://" +:+ domain +:+ "/oauth2/" +:+ auth_server_id;
     audience := audience;
     algorithms := ["RS256"];
     jwks_client :=
       {| uri := "https://" +:+ domain +:+ "/oauth2/" +:+ auth_server_id
                 +:+ "/v1/keys";
          cache_keys := true;
          lifespan := 3600 |} |}.

Section Verify.
Context {Key : Type}.
Variable get_signing_key_from_jwt : PyJWKClient -> string -> result Key.
Variable jwt_decode :
  string -> Key -> list string -> string -> string -> list string ->
  result payload_t.

Definition verify_token_try (self : t) (tok : string) : result AccessToken :=
  let* signing_key := get_signing_key_from_jwt (jwks_client self) tok in
  let* payload :=
    jwt_decode tok signing_key (algorithms self) (issuer self)
      (audience self) ["exp"; "iss"; "aud"; "sub"] in
  let scopes := dict_get payload "scp" (JList []) in
  let* scopes :=
    (if isinstance_str scopes then py_split scopes else Ok scopes) in
  let client_id :=
    dict_get payload "cid" (dict_get payload "sub" (JStr "unknown")) in
  let expires_at := dict_get payload "exp" JNull in
  new_AccessToken (JStr tok) client_id scopes expires_at.

Definition verify_token (self : t) (tok : string)
  : result (option AccessToken) :=
  try_ (let* a := verify_token_try self tok in Ok (Some a)) handlers.
End Verify.

End OktaTokenVerifier.

(** ** The claims validator *)

(** A token split into its three parts and decoded: the header object, the
  decoded payload, and the two strings the signature check compares. *)
Record jws : Type := {
  header : gmap string json;
  claims : json;
  signing_input : string;
  signature : string
}.

Section Validator.
Context {Key : Type}.
(** Parsing of the compact serialisation (base64url segments holding
    JSON); raises on a malformed token. *)
Variable load : string -> result jws.
(** The cryptographic check of one algorithm under one key. *)
Variable sig_ok : string -> Key -> string -> string -> bool.
(** The clock, in epoch seconds. *)
Variable now : Z.

Definition check_algorithm (algorithms : list string) (h : gmap string json)
  : result string :=
  match h !! "alg" with
  | Some (JStr a) =>
      if bool_decide (a ∈ algorithms) then Ok a else Raise InvalidAlgorithmError
  | _ => Raise InvalidAlgorithmError
  end.

Definition check_signature (a : string) (key : Key) (t : jws) : result unit :=
  if sig_ok a key (signing_input t) (signature t) then Ok ()
  else Raise InvalidSignatureError.

Definition claims_object (v : json) : result payload_t :=
  match v with
  | JObj p => Ok p
  | _ => Raise DecodeError
  end.

(** A claim is present when the payload has a non-null value for it. *)
Definition present (p : payload_t) (c : string) : bool :=
  match p !! c with
  | None | Some JNull => false
  | Some _ => true
  end.

Fixpoint check_required (require : list string) (p : payload_t) : result unit :=
  match require with
  | [] => Ok ()
  | c :: rest =>
      if present p c then check_required rest p
      else Raise (MissingRequiredClaimError c)
  end.

Definition check_issuer (issuer : string) (p : payload_t) : result unit :=
  match p !! "iss" with
  | None => Raise (MissingRequiredClaimError "iss")
  | Some (JStr i) =>
      if bool_decide (i = issuer) then Ok () else Raise InvalidIssuerError
  | Some _ => Raise InvalidIssuerError
  end.

(** [v == s] for a string [s] *)
Definition is_str (s : string) (v : json) : bool :=
  match v with
  | JStr a => bool_decide (a = s)
  | _ => false
  end.

Definition check_audience (audience : string) (p : payload_t) : result unit :=
  match p !! "aud" with
  | None => Raise (MissingRequiredClaimError "aud")
  | Some (JStr a) =>
      if bool_decide (a = audience) then Ok () else Raise InvalidAudienceError
  | Some (JList l) =>
      if existsb (is_str audience) l then Ok ()
      else Raise InvalidAudienceError
  | Some _ => Raise InvalidAudienceError
  end.

Definition check_expiry (p : payload_t) : result unit :=
  match p !! "exp" with
  | None => Ok ()
  | Some (JNum e) =>
      if e <=? now then Raise ExpiredSignatureError else Ok ()
  | Some _ => Raise DecodeError
  end.

(** Modelled from the spec: [jwt.decode] belongs to the PyJWT library and
    is not part of this repository; the verifiers only call it.  This is the
    design document's Claims Validator (section 4.2), in the order it lists
    its checks: the signature is verified under an algorithm of the allowed
    set only; the claims named by [require] must be present; the issuer
    claim must equal the expected issuer; the expected audience must be the
    audience claim or a member of it; the token is expired when the current
    time is at or after the expiry claim, with no leeway; a token that does
    not parse, or whose payload is not an object, is malformed. *)
Definition jwt_decode (tok : string) (key : Key) (algorithms : list string)
    (issuer audience : string) (require : list string) : result payload_t :=
  let* t := load tok in
  let* a := check_algorithm algorithms (header t) in
  let* _ := check_signature a key t in
  let* p := claims_object (claims t) in
  let* _ := check_required require p in
  let* _ := check_issuer issuer p in
  let* _ := check_audience audience p in
  let* _ := check_expiry p in
  Ok p.
End Validator.

(** ** Test vectors *)
Module Vectors.
Definition domain : string := "tenant.example.com".
Definition api : string := "https://mcp-api".
Definition clock : Z := 1700000000.

(** A key client that resolves every token to one key. *)
Definition one_key (_ : PyJWKClient) (_ : string) : result string := Ok "key-1".

(** A signature is good when it is the key followed by the algorithm. *)
Definition toy_sig (a key _ sg : string) : bool := String.eqb sg (key +:+ "/" +:+ a).

(** A loader that reads every token as the given header algorithm and
    claim set, signed correctly for [one_key]. *)
Definition toy_load (alg : string) (p : payload_t) (tok : string) : result jws :=
  Ok {| header := {[ "alg" := JStr alg ]};
        claims := JObj p;
        signing_input := tok;
        signature := "key-1/" +:+ alg |}.

Definition auth0_claims (exp : Z) (scope : option json) : payload_t :=
  let base : payload_t :=
    <[ "iss" := JStr ("https://" +:+ domain +:+ "/") ]>
    (<[ "aud" := JStr api ]>
    (<[ "sub" := JStr "auth0|abc123" ]>
    (<[ "exp" := JNum exp ]> ∅))) in
  match scope with
  | Some v => <[ "scope" := v ]> base
  | None => base
  end.

Definition okta_claims (exp : Z) (scp cid : option json) : payload_t :=
  let base : payload_t :=
    <[ "iss" := JStr ("https://" +:+ domain +:+ "/oauth2/default") ]>
    (<[ "aud" := JStr api ]>
    (<[ "sub" := JStr "00u1" ]>
    (<[ "exp" := JNum exp ]> ∅))) in
  let base := match scp with Some v => <[ "scp" := v ]> base | None => base end in
  match cid with Some v => <[ "cid" := v ]> base | None => base end.

(** A collaborator standing for "validation passed with this payload". *)
Definition verified (p : payload_t)
  (_ : string) (_ : string) (_ : list string) (_ _ : string)
  (_ : list string) : result payload_t := Ok p.

Definition a0 : Auth0TokenVerifier.t := Auth0TokenVerifier.init domain api.
Definition o0 : OktaTokenVerifier.t := OktaTokenVerifier.init domain api "default".

(** The two payloads of the design document's adapter examples. *)
Definition payload_a : payload_t :=
  <[ "scope" := JStr "read write" ]>
  (<[ "sub" := JStr "auth0|abc123" ]>
  (<[ "exp" := JNum (clock + 3600) ]> ∅)).

Definition payload_b : payload_t :=
  <[ "scp" := JList [JStr "read"; JStr "write"] ]>
  (<[ "cid" := JStr "0oaXYZ" ]>
  (<[ "exp" := JNum (clock + 3600) ]> ∅)).

(** Payloads naming one scope twice. *)
Definition payload_a_twice : payload_t :=
  <[ "scope" := JStr "read read" ]> payload_a.

Definition payload_b_twice : payload_t :=
  <[ "scp" := JList [JStr "read"; JStr "read"] ]> payload_b.

(** A well-formed Auth0 claim set from which [sub] was left out. *)
Definition no_sub : payload_t :=
  delete "sub" (auth0_claims (clock + 3600) (Some (JStr "read"))).

(** A payload with neither [scope], [scp] nor [cid]. *)
Definition payload_bare : payload_t :=
  <[ "sub" := JStr "auth0|abc123" ]> (<[ "exp" := JNum (clock + 3600) ]> ∅).
End Vectors.

(** The statements of the [try] block that follow [jwt.decode], as functions
  of the decoded payload: Auth0 first, then Okta. *)
Definition auth0_normalize (tok : string) (p : payload_t) : result AccessToken :=
  let scope_str := dict_get p "scope" (JStr "") in
  let* scopes :=
    (if truthy scope_str then py_split scope_str else Ok (JList [])) in
  new_AccessToken (JStr tok) (dict_get p "sub" (JStr "unknown")) scopes
    (dict_get p "exp" JNull).

Definition okta_normalize (tok : string) (p : payload_t) : result AccessToken :=
  let scopes := dict_get p "scp" (JList []) in
  let* scopes :=
    (if isinstance_str scopes then py_split scopes else Ok scopes) in
  new_AccessToken (JStr tok)
    (dict_get p "cid" (dict_get p "sub" (JStr "unknown"))) scopes
    (dict_get p "exp" JNull).

(** ** The adapter table of the design document (section 4.3)

    These follow the table's words, for claims of the documented shapes;
    they are what the verifiers' normalisation is compared with. *)

(** A sequence of strings, read off a JSON list. *)
Fixpoint strings_of (l : list json) : option (list string) :=
  match l with
  | [] => Some []
  | JStr s :: l' => cons s <$> strings_of l'
  | _ :: _ => None
  end.

(** Provider B: [scp], a sequence of strings, or a single space-separated
  string. *)
Definition okta_scopes_rule (p : payload_t) : option (list string) :=
  match p !! "scp" with
  | Some (JList l) => strings_of l
  | Some (JStr s) => Some (str_split s)
  | _ => None
  end.

(** Provider B: [cid], falling back to [sub], else ["unknown"]. *)
Definition okta_client_rule (p : payload_t) : option string :=
  match p !! "cid", p !! "sub" with
  | Some (JStr c), _ => Some c
  | None, Some (JStr c) => Some c
  | None, None => Some "unknown"
  | _, _ => None
  end.

(** The scope strings a payload names, in the order and with the repetitions
  it names them: the words of Provider A's [scope] string, the items (or
  words) of Provider B's [scp]. *)
Definition auth0_claimed_scopes (p : payload_t) : list string :=
  match p !! "scope" with
  | Some (JStr s) => str_split s
  | _ => []
  end.

Definition okta_claimed_scopes (p : payload_t) : list string :=
  match p !! "scp" with
  | Some (JStr s) => str_split s
  | Some (JList l) => default [] (strings_of l)
  | _ => []
  end.

(** A token that passes every check of the validator other than the expiry
  check, with claim set [p]: the key resolves, the token parses, its
  algorithm is allowed and its signature good, and the required, issuer and
  audience checks succeed. *)
Definition passes_all_but_expiry {Key : Type}
    (get_key : PyJWKClient -> string -> result Key)
    (load : string -> result jws)
    (sig_ok : string -> Key -> string -> string -> bool)
    (client : PyJWKClient) (algorithms : list string)
    (issuer audience : string) (require : list string)
    (tok : string) (p : payload_t) : Prop :=
  exists k t a,
    get_key client tok = Ok k /\
    load tok = Ok t /\
    check_algorithm algorithms (header t) = Ok a /\
    check_signature sig_ok a k t = Ok () /\
    claims t = JObj p /\
    check_required require p = Ok () /\
    check_issuer issuer p = Ok () /\
    check_audience audience p = Ok ().

(** ** Words of [str.split()] *)

Definition no_space (w : list ascii) : Prop :=
  Forall (fun c => isspace c = false) w.

(** A scope word: not empty, and free of whitespace. *)
Definition scope_word (s : string) : Prop :=
  s <> "" /\ no_space (list_ascii_of_string s).

(** A string of whitespace only (the empty string included). *)
Definition blank (s : string) : Prop :=
  Forall (fun c => isspace c = true) (list_ascii_of_string s).

(** ** The servers' configuration (03-auth-oauth-server/server.py and
    04-okta-oauth-server/server.py) *)

(** [os.environ.get(name, default)] *)
Definition environ_get (environ : gmap string string) (name dflt : string)
  : string :=
  match environ !! name with
  | Some v => v
  | None => dflt
  end.


(** The payload names [audience]: as its [aud] string, or as a member of
    its [aud] list. *)
Definition aud_names (audience : string) (p : payload_t) : Prop :=
  p !! "aud" = Some (JStr audience) \/
  exists l, p !! "aud" = Some (JList l) /\ JStr audience ∈ l.

(** ** More of Python's built-ins

    Strings are sequences of code points below 256, one per [ascii], as
    for [isspace] above. *)

(** [str(n)] for an [int]: its decimal text.  The interpreter refuses to
    convert a number of more than [max_str_digits] digits and raises
    [ValueError] instead; the model covers the conversions below that
    limit. *)
Definition py_str (n : Z) : string := NilZero.string_of_int (Z.to_int n).

(** [len(s)] *)
Definition py_len (s : string) : Z := Z.of_nat (String.length s).

(** [sep.join(l)] *)
Fixpoint join (sep : string) (l : list string) : string :=
  match l with
  | [] => ""
  | [x] => x
  | x :: l' => x +:+ sep +:+ join sep l'
  end.

(** [c.lower()]: the upper-case letters below 256 are A-Z and the accented
    capitals 192-222 other than the multiplication sign 215; each is 32
    below its lower-case form. *)
Definition lower_char (c : ascii) : ascii :=
  let n := N_of_ascii c in
  if (((65 <=? n) && (n <=? 90))
      || ((192 <=? n) && (n <=? 222) && negb (n =? 215)))%N
  then ascii_of_N (n + 32) else c.

(** [s.lower()] for a string of code points below 256, where it is this
    per-character map.  (Beyond that range lower-casing also depends on
    the neighbouring characters, as for the Greek capital sigma; such
    strings are outside the model.) *)
Fixpoint lower (s : string) : string :=
  match s with
  | EmptyString => EmptyString
  | String c s' => String (lower_char c) (lower s')
  end.

(** [q in s] for strings: [q] occurs in [s] as a substring. *)
Fixpoint str_in (q s : string) : bool :=
  String.prefix q s ||
  match s with
  | EmptyString => false
  | String _ s' => str_in q s'
  end.

(** [s[:n]] *)
Fixpoint str_take (n : nat) (s : string) : string :=
  match n, s with
  | S n', String c s' => String c (str_take n' s')
  | _, _ => EmptyString
  end.

(** [s.replace(a, b)] for one-character [a] and [b] *)
Fixpoint replace_char (a b : ascii) (s : string) : string :=
  match s with
  | EmptyString => EmptyString
  | String c s' =>
      String (if Ascii.eqb c a then b else c) (replace_char a b s')
  end.

(** The order of [sorted] on strings: lexicographic by code point. *)
Definition str_le (a b : string) : Prop := String.leb a b = true.

#[local] Instance str_le_dec : RelDecision str_le.
Proof. intros a b. unfold str_le. apply _. Defined.

(** [sorted(l)] for a list of strings *)
Definition sorted (l : list string) : list string := merge_sort str_le l.

(** ** Python's [dict], in insertion order *)
Section OrderedDict.
Context {V : Type}.

(** [d.get(k)] / [d[k]] *)
Fixpoint odict_get (d : list (string * V)) (k : string) : option V :=
  match d with
  | [] => None
  | (k', v) :: d' => if String.eqb k' k then Some v else odict_get d' k
  end.

(** [k in d] *)
Definition odict_in (k : string) (d : list (string * V)) : bool :=
  match odict_get d k with Some _ => true | None => false end.

(** [d[k] = v]: an existing key keeps its place, a new key goes last. *)
Fixpoint odict_set (d : list (string * V)) (k : string) (v : V)
  : list (string * V) :=
  match d with
  | [] => [(k, v)]
  | (k', v') :: d' =>
      if String.eqb k' k then (k', v) :: d'
      else (k', v') :: odict_set d' k v
  end.

(** [list(d)]: the keys *)
Definition odict_keys (d : list (string * V)) : list string := d.*1.
End OrderedDict.

(** ** python/01-stdio-server/server.py

    The module-level [notes] dictionary is threaded through: a function
    that assigns to it returns the new dictionary beside its result. *)
Module NotesServer.

Definition add_note (name content : string) (notes : list (string * string))
  : list (string * string) * string :=
  let notes := odict_set notes name content in
  (notes,
   "Note '" +:+ name +:+ "' saved (" +:+ py_str (py_len content) +:+ " chars).").

(** The [matches] list the loop of [search_notes] builds. *)
Fixpoint search_matches (q : string) (items : list (string * string))
  : list string :=
  match items with
  | [] => []
  | (name, content) :: rest =>
      if str_in q (lower name) || str_in q (lower content) then
        let preview := replace_char "010" " " (str_take 120 content) in
        ("- **" +:+ name +:+ "**: " +:+ preview) :: search_matches q rest
      else search_matches q rest
  end.

Definition search_notes (query : string) (notes : list (string * string))
  : string :=
  let q := lower query in
  let matches := search_matches q notes in
  match matches with
  | [] => "No notes matching '" +:+ query +:+ "'."
  | _ =>
      "Found " +:+ py_str (Z.of_nat (length matches)) +:+ " note(s):"
      +:+ String "010" (join (String "010" "") matches)
  end.

Definition list_notes (notes : list (string * string)) : string :=
  match notes with
  | [] => "No notes stored yet."
  | _ =>
      join (String "010" "")
        ((fun name => "- " +:+ name) <$> sorted (odict_keys notes))
  end.

Definition read_note (name : string) (notes : list (string * string))
  : string :=
  if negb (odict_in name notes) then "Note '" +:+ name +:+ "' not found."
  else match odict_get notes name with
       | Some content => content
       | None => ""  (* not reached: the key is in the dictionary *)
       end.

Definition summarize_notes (style : string) (notes : list (string * string))
  : string :=
  match notes with
  | [] => "There are no notes to summarize."
  | _ =>
      let notes_text :=
        join (String "010" (String "010" ""))
          ((fun '(name, content) => "## " +:+ name +:+ String "010" content)
             <$> notes) in
      let instruction :=
        if String.eqb style "detailed" then
          "Provide a detailed analysis of the following notes. "
          +:+ "Include key themes, action items, and connections between notes."
        else
          "Provide a brief summary of the following notes in a few sentences."
      in
      instruction +:+ String "010" (String "010" notes_text)
  end.
End NotesServer.

(** The line [search_notes] prints for a note. *)
Definition note_line (item : string * string) : string :=
  "- **" +:+ item.1 +:+ "**: "
  +:+ replace_char "010" " " (str_take 120 item.2).

(** ** [int(s)] for a string

    Surrounding whitespace is dropped, one sign may lead, and the digits may
    be grouped by single underscores: [" 12 "], ["+7"], ["-0"], ["1_000"] and
    ["007"] are integer literals; [""], ["1 2"], ["_1"], ["1__0"] and ["1.0"]
    are not.  The interpreter refuses a literal of more than
    [max_str_digits] digits and raises [ValueError]; the model covers the
    literals below that limit. *)

(** The whitespace [int] skips: tab to carriage return, space, and the two
    spaces 133 and 160. *)
Definition int_space (c : ascii) : bool :=
  let n := N_of_ascii c in
  (((9 <=? n) && (n <=? 13)) || (n =? 32) || (n =? 133) || (n =? 160))%N.

Fixpoint lstrip (s : list ascii) : list ascii :=
  match s with
  | c :: s' => if int_space c then lstrip s' else s
  | [] => []
  end.

Definition strip (s : string) : string :=
  string_of_list_ascii
    (rev (lstrip (rev (lstrip (list_ascii_of_string s))))).

Definition is_digit (c : ascii) : bool :=
  let n := N_of_ascii c in ((48 <=? n) && (n <=? 57))%N.

(** The digits of a digit part, its underscores removed; nothing when the
    part is empty, or an underscore is not between two digits. *)
Fixpoint digits_of (after_digit : bool) (s : string) : option string :=
  match s with
  | EmptyString => if after_digit then Some EmptyString else None
  | String c s' =>
      if is_digit c then String c <$> digits_of true s'
      else if Ascii.eqb c "_" && after_digit then digits_of false s'
      else None
  end.

Definition parse_digits (s : string) : option Z :=
  d ← digits_of false s;
  Z.of_uint <$> NilEmpty.uint_of_string d.

Definition parse_int (s : string) : option Z :=
  match strip s with
  | EmptyString => None
  | String c r =>
      if Ascii.eqb c "-" then Z.opp <$> parse_digits r
      else if Ascii.eqb c "+" then parse_digits r
      else parse_digits (String c r)
  end.

(** A result, or [ValueError] with the text at fault. *)
Inductive outcome (A : Type) : Type :=
  | Done (a : A)
  | ValueError (text : string).
Arguments Done {A} a.
Arguments ValueError {A} text.

Definition py_int (s : string) : outcome Z :=
  match parse_int s with
  | Some n => Done n
  | None => ValueError s
  end.

(** ** The JSON-file stores (02-streamable-http-server, 03-auth-oauth-server
    and 04-okta-oauth-server, server.py)

    The file is modelled by the dictionary it holds, in the order of its
    keys: [None] is a file that does not exist.  What [_save_*] writes,
    [_load_*] reads back as it was.  A record's values are JSON values; the
    order of the fields inside a record is not kept. *)

(** [[int(k) for k in keys]], stopping at the first key that is no
    integer literal. *)
Fixpoint ints_of (keys : list string) : outcome (list Z) :=
  match keys with
  | [] => Done []
  | k :: rest =>
      match py_int k with
      | ValueError t => ValueError t
      | Done n =>
          match ints_of rest with
          | ValueError t => ValueError t
          | Done ns => Done (n :: ns)
          end
      end
  end.

(** [max(l)] *)
Definition py_max (l : list Z) : outcome Z :=
  match l with
  | [] => ValueError "max() arg is an empty sequence"
  | x :: l' => Done (fold_left Z.max l' x)
  end.

(** [_next_id], the same function in the three servers. *)
Definition _next_id (records : list (string * json)) : outcome string :=
  match records with
  | [] => Done "1"
  | _ =>
      match ints_of (odict_keys records) with
      | ValueError t => ValueError t
      | Done ns =>
          match py_max ns with
          | ValueError t => ValueError t
          | Done m => Done (py_str (m + 1))
          end
      end
  end.

Module TasksServer.
Definition AUTH0_DOMAIN (environ : gmap string string) : string :=
  environ_get environ "AUTH0_DOMAIN" "your-tenant.auth0.com".
Definition AUTH0_AUDIENCE (environ : gmap string string) : string :=
  environ_get environ "AUTH0_AUDIENCE" "https://mcp-tasks-api".

Definition _load_tasks (db : option (list (string * json)))
  : list (string * json) :=
  match db with
  | None => []
  | Some tasks => tasks
  end.

Definition _save_tasks (tasks : list (string * json))
  : option (list (string * json)) := Some tasks.

Definition token_verifier (environ : gmap string string) : Auth0TokenVerifier.t :=
  Auth0TokenVerifier.init (AUTH0_DOMAIN environ) (AUTH0_AUDIENCE environ).

(** The [issuer_url] handed to [AuthSettings], which the server advertises
    to its clients. *)
Definition issuer_url (environ : gmap string string) : string :=
  "https://" +:+ AUTH0_DOMAIN environ +:+ "/".

(** The record [create_task] stores. *)
Definition task (new_id title status priority : string) : json :=
  JObj (<[ "id" := JStr new_id ]>
       (<[ "title" := JStr title ]>
       (<[ "status" := JStr status ]>
       (<[ "priority" := JStr priority ]> ∅)))).

(** [create_task]: the file after the call, and what the call returns or
    raises. *)
Definition create_task (title status priority : string)
    (db : option (list (string * json)))
  : option (list (string * json)) * outcome string :=
  let tasks := _load_tasks db in
  match _next_id tasks with
  | ValueError t => (db, ValueError t)
  | Done new_id =>
      let tasks := odict_set tasks new_id (task new_id title status priority) in
      (_save_tasks tasks,
       Done ("Task '" +:+ title +:+ "' created with id " +:+ new_id
             +:+ " (status=" +:+ status +:+ ", priority=" +:+ priority +:+ ")."))
  end.
End TasksServer.

Module IncidentsServer.
Definition OKTA_DOMAIN (environ : gmap string string) : string :=
  environ_get environ "OKTA_DOMAIN" "your-org.okta.com".
Definition OKTA_AUDIENCE (environ : gmap string string) : string :=
  environ_get environ "OKTA_AUDIENCE" "https://mcp-incidents-api".
Definition OKTA_AUTH_SERVER_ID (environ : gmap string string) : string :=
  environ_get environ "OKTA_AUTH_SERVER_ID" "default".

Definition _load_incidents (db : option (list (string * json)))
  : list (string * json) :=
  match db with
  | None => []
  | Some incidents => incidents
  end.

Definition _save_incidents (incidents : list (string * json))
  : option (list (string * json)) := Some incidents.

Definition token_verifier (environ : gmap string string) : OktaTokenVerifier.t :=
  OktaTokenVerifier.init (OKTA_DOMAIN environ) (OKTA_AUDIENCE environ)
    (OKTA_AUTH_SERVER_ID environ).

Definition issuer_url (environ : gmap string string) : string :=
  "https://" +:+ OKTA_DOMAIN environ +:+ "/oauth2/"
  +:+ OKTA_AUTH_SERVER_ID environ.

(** The record [create_incident] stores. *)
Definition incident (new_id title severity status : string) : json :=
  JObj (<[ "id" := JStr new_id ]>
       (<[ "title" := JStr title ]>
       (<[ "severity" := JStr severity ]>
       (<[ "status" := JStr status ]> ∅)))).

Definition create_incident (title severity status : string)
    (db : option (list (string * json)))
  : option (list (string * json)) * outcome string :=
  let incidents := _load_incidents db in
  match _next_id incidents with
  | ValueError t => (db, ValueError t)
  | Done new_id =>
      let incidents :=
        odict_set incidents new_id (incident new_id title severity status) in
      (_save_incidents incidents,
       Done ("Incident '" +:+ title +:+ "' created with id " +:+ new_id
             +:+ " (severity=" +:+ severity +:+ ", status=" +:+ status +:+ ")."))
  end.
End IncidentsServer.

(** [create_task] for each request of a list, in turn; a call that raises
    leaves the file as it was. *)
Fixpoint create_tasks (requests : list (string * string * string))
    (db : option (list (string * json))) : option (list (string * json)) :=
  match requests with
  | [] => db
  | (title, status, priority) :: rest =>
      create_tasks rest (TasksServer.create_task title status priority db).1
  end.

(** A string of decimal digits. *)
Definition digits (s : string) : Prop :=
  Forall (fun c => is_digit c = true) (list_ascii_of_string s).

(** An integer literal, as [int] accepts it. *)
Definition int_literal (s : string) : Prop := is_Some (parse_int s).

(** The interpreter's default limit on the digits converted between [str]
  and [int], above which both raise [ValueError]; [py_str] and
  [parse_int] model the conversions below it. *)
Definition max_str_digits : nat := 4300.

(** A key that stays within that limit, together with its successor. *)
Definition within_digit_limit (k : string) : Prop :=
  (String.length k <= max_str_digits)%nat /\
  forall n, parse_int k = Some n -> n + 1 < 10 ^ Z.of_nat max_str_digits.

Example str_split_two : str_split "read write" = ["read"; "write"].
Proof. reflexivity. Qed.

Example str_split_blank : str_split "  a  b " = ["a"; "b"].
Proof. reflexivity. Qed.

Example auth0_vector :
  Auth0TokenVerifier.verify_token Vectors.one_key
    (jwt_decode (Vectors.toy_load "RS256"
                   (Vectors.auth0_claims (Vectors.clock + 1) (Some (JStr "read write"))))
                Vectors.toy_sig Vectors.clock)
    (Auth0TokenVerifier.init Vectors.domain Vectors.api) "tok"
  = Ok (Some {| token := "tok"; client_id := "auth0|abc123";
                scopes := ["read"; "write"];
                expires_at := Some (Vectors.clock + 1) |}).
Proof. vm_compute. reflexivity. Qed.

Example auth0_vector_expired :
  Auth0TokenVerifier.verify_token Vectors.one_key
    (jwt_decode (Vectors.toy_load "RS256"
                   (Vectors.auth0_claims (Vectors.clock) (Some (JStr "read write"))))
                Vectors.toy_sig Vectors.clock)
    (Auth0TokenVerifier.init Vectors.domain Vectors.api) "tok"
  = Ok None.
Proof. vm_compute. reflexivity. Qed.

(** * Properties *)

(** ** Helper lemmas on the building blocks *)

Lemma try_handlers_catch_all (e : exn) : try_except handlers e = Ok None.
Proof. destruct e; reflexivity. Qed.

Lemma try_handlers (body : result AccessToken) :
  try_ (let* a := body in Ok (Some a)) handlers
  = match body with Ok a => Ok (Some a) | Raise _ => Ok None end.
Proof.
  destruct body as [a|e]; simpl; [reflexivity|].
  apply try_handlers_catch_all.
Qed.

Lemma as_str_items_fmap (f : string) (l : list string) :
  as_str_items f (JStr <$> l) = Ok l.
Proof.
  induction l as [|x l IH]; [reflexivity|].
  rewrite fmap_cons. cbn [as_str_items as_str rbind].
  rewrite IH. reflexivity.
Qed.

Lemma as_str_items_inv (f : string) (l : list json) (ss : list string) :
  as_str_items f l = Ok ss -> l = JStr <$> ss.
Proof.
  revert ss. induction l as [|v l IH]; simpl; intros ss H.
  - injection H as <-. reflexivity.
  - destruct v; simpl in H; try discriminate.
    destruct (as_str_items f l) as [ss'|e]; simpl in H; [|discriminate].
    injection H as <-. rewrite (IH ss' eq_refl). reflexivity.
Qed.


Lemma truthy_str (s : string) :
  (if truthy (JStr s) then py_split (JStr s) else Ok (JList []))
  = Ok (JList (JStr <$> str_split s)).
Proof.
  destruct s as [|c s]; reflexivity.
Qed.

(** ** The verifiers over arbitrary collaborators

    Nothing is assumed here about the key client or about [jwt.decode]:
    each may return or raise anything. *)
Section AnyCollaborators.
Context {Key : Type}.
Variable get_key : PyJWKClient -> string -> result Key.
Variable decode :
  string -> Key -> list string -> string -> string -> list string ->
  result payload_t.

Abbreviation auth0 := (Auth0TokenVerifier.verify_token get_key decode).
Abbreviation okta := (OktaTokenVerifier.verify_token get_key decode).
Abbreviation required := ["exp"; "iss"; "aud"; "sub"]%list.

Lemma auth0_unfold (self : Auth0TokenVerifier.t) (tok : string) :
  auth0 self tok =
  match
    (let* k := get_key (Auth0TokenVerifier.jwks_client self) tok in
     let* p := decode tok k (Auth0TokenVerifier.algorithms self)
                 (Auth0TokenVerifier.issuer self)
                 (Auth0TokenVerifier.audience self) required in
     auth0_normalize tok p)
  with
  | Ok a => Ok (Some a)
  | Raise _ => Ok None
  end.
Proof.
  unfold Auth0TokenVerifier.verify_token. rewrite try_handlers. reflexivity.
Qed.

Lemma okta_unfold (self : OktaTokenVerifier.t) (tok : string) :
  okta self tok =
  match
    (let* k := get_key (OktaTokenVerifier.jwks_client self) tok in
     let* p := decode tok k (OktaTokenVerifier.algorithms self)
                 (OktaTokenVerifier.issuer self)
                 (OktaTokenVerifier.audience self) required in
     okta_normalize tok p)
  with
  | Ok a => Ok (Some a)
  | Raise _ => Ok None
  end.
Proof.
  unfold OktaTokenVerifier.verify_token. rewrite try_handlers. reflexivity.
Qed.

(** A grant comes from a resolved key and a decoded payload. *)
Lemma auth0_grant_inv (self : Auth0TokenVerifier.t) (tok : string) (g : AccessToken) :
  auth0 self tok = Ok (Some g) ->
  exists k p,
    get_key (Auth0TokenVerifier.jwks_client self) tok = Ok k /\
    decode tok k (Auth0TokenVerifier.algorithms self)
      (Auth0TokenVerifier.issuer self) (Auth0TokenVerifier.audience self)
      required = Ok p /\
    auth0_normalize tok p = Ok g.
Proof.
  rewrite auth0_unfold. intros H.
  destruct (get_key _ tok) as [k|e] eqn:Hk; simpl in H; [|discriminate].
  destruct (decode tok k _ _ _ _) as [p|e] eqn:Hd; simpl in H; [|discriminate].
  destruct (auth0_normalize tok p) as [a|e] eqn:Hn; [|discriminate].
  injection H as <-. exists k, p. auto.
Qed.

Lemma okta_grant_inv (self : OktaTokenVerifier.t) (tok : string) (g : AccessToken) :
  okta self tok = Ok (Some g) ->
  exists k p,
    get_key (OktaTokenVerifier.jwks_client self) tok = Ok k /\
    decode tok k (OktaTokenVerifier.algorithms self)
      (OktaTokenVerifier.issuer self) (OktaTokenVerifier.audience self)
      required = Ok p /\
    okta_normalize tok p = Ok g.
Proof.
  rewrite okta_unfold. intros H.
  destruct (get_key _ tok) as [k|e] eqn:Hk; simpl in H; [|discriminate].
  destruct (decode tok k _ _ _ _) as [p|e] eqn:Hd; simpl in H; [|discriminate].
  destruct (okta_normalize tok p) as [a|e] eqn:Hn; [|discriminate].
  injection H as <-. exists k, p. auto.
Qed.

(** The fields of a grant, read back from the payload it was built from. *)
Lemma auth0_normalize_inv (tok : string) (p : payload_t) (g : AccessToken) :
  auth0_normalize tok p = Ok g ->
  token g = tok /\
  dict_get p "sub" (JStr "unknown") = JStr (client_id g) /\
  scopes g = match dict_get p "scope" (JStr "") with
             | JStr s => str_split s
             | _ => []
             end /\
  as_opt_int "expires_at" (dict_get p "exp" JNull) = Ok (expires_at g).
Proof.
  unfold auth0_normalize, new_AccessToken. intros H.
  destruct (dict_get p "sub" (JStr "unknown")) as [| | |c| |] eqn:Hsub;
    try (destruct (if truthy _ then _ else _); simpl in H; discriminate).
  destruct (dict_get p "scope" (JStr "")) as [|b|n|s|l|o] eqn:Hscope.
  - simpl in H. destruct (as_opt_int _ _) as [e|]; simpl in H; [|discriminate].
    injection H as <-. auto.
  - destruct b; simpl in H; [discriminate|].
    destruct (as_opt_int _ _) as [e|]; simpl in H; [|discriminate].
    injection H as <-. auto.
  - simpl in H. destruct (n =? 0); simpl in H; [|discriminate].
    destruct (as_opt_int _ _) as [e|]; simpl in H; [|discriminate].
    injection H as <-. auto.
  - rewrite truthy_str in H. simpl in H. rewrite as_str_items_fmap in H.
    simpl in H.
    destruct (as_opt_int _ _) as [e|]; simpl in H; [|discriminate].
    injection H as <-. auto.
  - destruct l; simpl in H; [|discriminate].
    destruct (as_opt_int _ _) as [e|]; simpl in H; [|discriminate].
    injection H as <-. auto.
  - simpl in H. destruct (bool_decide (o = ∅)); simpl in H; [|discriminate].
    destruct (as_opt_int _ _) as [e|]; simpl in H; [|discriminate].
    injection H as <-. auto.
Qed.

Lemma okta_normalize_inv (tok : string) (p : payload_t) (g : AccessToken) :
  okta_normalize tok p = Ok g ->
  token g = tok /\
  dict_get p "cid" (dict_get p "sub" (JStr "unknown")) = JStr (client_id g) /\
  match dict_get p "scp" (JList []) with
  | JStr s => scopes g = str_split s
  | JList l => l = JStr <$> scopes g
  | _ => False
  end /\
  as_opt_int "expires_at" (dict_get p "exp" JNull) = Ok (expires_at g).
Proof.
  unfold okta_normalize, new_AccessToken. intros H.
  destruct (dict_get p "cid" _) as [| | |c| |] eqn:Hcid;
    try (destruct (if isinstance_str _ then _ else _); simpl in H; discriminate).
  destruct (dict_get p "scp" (JList [])) as [|b|n|s|l|o] eqn:Hscp;
    simpl in H; try discriminate.
  - rewrite as_str_items_fmap in H. simpl in H.
    destruct (as_opt_int _ _) as [e|]; simpl in H; [|discriminate].
    injection H as <-. auto.
  - destruct (as_str_items "scopes" l) as [ss|] eqn:Hl; simpl in H; [|discriminate].
    destruct (as_opt_int _ _) as [e|]; simpl in H; [|discriminate].
    injection H as <-. simpl. repeat split. eapply as_str_items_inv, Hl.
Qed.
Lemma key_failure_auth0 (self : Auth0TokenVerifier.t) (tok : string) (e : exn) :
  get_key (Auth0TokenVerifier.jwks_client self) tok = Raise e ->
  Auth0TokenVerifier.verify_token_try get_key decode self tok = Raise e.
Proof.
  intros H. unfold Auth0TokenVerifier.verify_token_try. rewrite H. reflexivity.
Qed.

Lemma decode_failure_auth0 (self : Auth0TokenVerifier.t) (tok : string) (k : Key) (e : exn) :
  get_key (Auth0TokenVerifier.jwks_client self) tok = Ok k ->
  decode tok k (Auth0TokenVerifier.algorithms self)
    (Auth0TokenVerifier.issuer self) (Auth0TokenVerifier.audience self)
    required = Raise e ->
  Auth0TokenVerifier.verify_token_try get_key decode self tok = Raise e.
Proof.
  intros Hk Hd. unfold Auth0TokenVerifier.verify_token_try.
  rewrite Hk. simpl. rewrite Hd. reflexivity.
Qed.

Lemma key_failure_okta (self : OktaTokenVerifier.t) (tok : string) (e : exn) :
  get_key (OktaTokenVerifier.jwks_client self) tok = Raise e ->
  OktaTokenVerifier.verify_token_try get_key decode self tok = Raise e.
Proof.
  intros H. unfold OktaTokenVerifier.verify_token_try. rewrite H. reflexivity.
Qed.

Lemma decode_failure_okta (self : OktaTokenVerifier.t) (tok : string) (k : Key) (e : exn) :
  get_key (OktaTokenVerifier.jwks_client self) tok = Ok k ->
  decode tok k (OktaTokenVerifier.algorithms self)
    (OktaTokenVerifier.issuer self) (OktaTokenVerifier.audience self)
    required = Raise e ->
  OktaTokenVerifier.verify_token_try get_key decode self tok = Raise e.
Proof.
  intros Hk Hd. unfold OktaTokenVerifier.verify_token_try.
  rewrite Hk. simpl. rewrite Hd. reflexivity.
Qed.

(** C1. [verify_token] never raises: for every token it returns a value.
  Whatever exception the [try] block ends with, of whatever kind (key fetch
  failure, unknown key id, malformed token, expired token, issuer or
  audience mismatch, missing claim, or an unanticipated error in the
  normalisation), the value returned is the one rejection [None]; so no two
  failures can be told apart by the caller.  In particular this holds for
  every exception of the key client and every exception of [jwt.decode].
  Both verifiers. *)
Theorem verify_token_uniform_rejection
    (a0 : Auth0TokenVerifier.t) (o0 : OktaTokenVerifier.t) (tok : string) :
  (exists r, auth0 a0 tok = Ok r) /\
  (exists r, okta o0 tok = Ok r) /\
  (forall e,
     Auth0TokenVerifier.verify_token_try get_key decode a0 tok = Raise e ->
     auth0 a0 tok = Ok None) /\
  (forall e,
     OktaTokenVerifier.verify_token_try get_key decode o0 tok = Raise e ->
     okta o0 tok = Ok None) /\
  (forall e,
     get_key (Auth0TokenVerifier.jwks_client a0) tok = Raise e ->
     auth0 a0 tok = Ok None) /\
  (forall e,
     get_key (OktaTokenVerifier.jwks_client o0) tok = Raise e ->
     okta o0 tok = Ok None) /\
  (forall k e,
     get_key (Auth0TokenVerifier.jwks_client a0) tok = Ok k ->
     decode tok k (Auth0TokenVerifier.algorithms a0)
       (Auth0TokenVerifier.issuer a0) (Auth0TokenVerifier.audience a0)
       required = Raise e ->
     auth0 a0 tok = Ok None) /\
  (forall k e,
     get_key (OktaTokenVerifier.jwks_client o0) tok = Ok k ->
     decode tok k (OktaTokenVerifier.algorithms o0)
       (OktaTokenVerifier.issuer o0) (OktaTokenVerifier.audience o0)
       required = Raise e ->
     okta o0 tok = Ok None).
Proof.
  assert (forall e,
            Auth0TokenVerifier.verify_token_try get_key decode a0 tok = Raise e ->
            auth0 a0 tok = Ok None) as Ha.
  { intros e H. unfold Auth0TokenVerifier.verify_token.
    rewrite try_handlers, H. reflexivity. }
  assert (forall e,
            OktaTokenVerifier.verify_token_try get_key decode o0 tok = Raise e ->
            okta o0 tok = Ok None) as Ho.
  { intros e H. unfold OktaTokenVerifier.verify_token.
    rewrite try_handlers, H. reflexivity. }
  repeat split.
  - unfold Auth0TokenVerifier.verify_token. rewrite try_handlers.
    destruct (Auth0TokenVerifier.verify_token_try _ _ _ _); eauto.
  - unfold OktaTokenVerifier.verify_token. rewrite try_handlers.
    destruct (OktaTokenVerifier.verify_token_try _ _ _ _); eauto.
  - exact Ha.
  - exact Ho.
  - intros e H. eapply Ha, key_failure_auth0, H.
  - intros e H. eapply Ho, key_failure_okta, H.
  - intros k e Hk Hd. eapply Ha, decode_failure_auth0; eassumption.
  - intros k e Hk Hd. eapply Ho, decode_failure_okta; eassumption.
Qed.

Lemma strings_of_strs (ss : list string) : strings_of (JStr <$> ss) = Some ss.
Proof.
  induction ss as [|x ss IH]; [reflexivity|].
  rewrite fmap_cons. cbn [strings_of]. rewrite IH. reflexivity.
Qed.

(** C2, as the code has it.  The scopes of every grant returned are the
  scope strings the verified payload names, in their order and with their
  repetitions: the words of the [scope] string for Auth0, the items of the
  [scp] list (or the words of the [scp] string) for Okta.  Nothing removes
  duplicates, so the grant's scopes are duplicate-free exactly when the
  claim names no scope twice. *)
Theorem scopes_repeat_as_claimed
    (a0 : Auth0TokenVerifier.t) (o0 : OktaTokenVerifier.t) (tok : string)
    (g : AccessToken) :
  (auth0 a0 tok = Ok (Some g) ->
   exists k p,
     get_key (Auth0TokenVerifier.jwks_client a0) tok = Ok k /\
     decode tok k (Auth0TokenVerifier.algorithms a0)
       (Auth0TokenVerifier.issuer a0) (Auth0TokenVerifier.audience a0)
       required = Ok p /\
     scopes g = auth0_claimed_scopes p /\
     (NoDup (scopes g) <-> NoDup (auth0_claimed_scopes p))) /\
  (okta o0 tok = Ok (Some g) ->
   exists k p,
     get_key (OktaTokenVerifier.jwks_client o0) tok = Ok k /\
     decode tok k (OktaTokenVerifier.algorithms o0)
       (OktaTokenVerifier.issuer o0) (OktaTokenVerifier.audience o0)
       required = Ok p /\
     scopes g = okta_claimed_scopes p /\
     (NoDup (scopes g) <-> NoDup (okta_claimed_scopes p))).
Proof.
  split; intros H.
  - apply auth0_grant_inv in H as (k & p & Hk & Hd & Hn).
    apply auth0_normalize_inv in Hn as (_ & _ & Hs & _).
    exists k, p. split; [exact Hk|]. split; [exact Hd|].
    assert (scopes g = auth0_claimed_scopes p) as E.
    { rewrite Hs. unfold auth0_claimed_scopes, dict_get.
      destruct (p !! "scope") as [[]|]; reflexivity. }
    split; [exact E|]. rewrite E. reflexivity.
  - apply okta_grant_inv in H as (k & p & Hk & Hd & Hn).
    apply okta_normalize_inv in Hn as (_ & _ & Hs & _).
    exists k, p. split; [exact Hk|]. split; [exact Hd|].
    assert (scopes g = okta_claimed_scopes p) as E.
    { unfold okta_claimed_scopes. unfold dict_get in Hs.
      destruct (p !! "scp") as [[]|]; try contradiction.
      - exact Hs.
      - subst l. rewrite strings_of_strs. reflexivity.
      - simpl in Hs. destruct (scopes g); [reflexivity|discriminate]. }
    split; [exact E|]. rewrite E. reflexivity.
Qed.

(** C6. Provider A: when validation passes with a payload whose [scope]
  claim is the string [s] and whose [sub] claim is the string [c], the
  grant carries the whitespace-split of [s] as scopes and [c] as client
  id. *)
Theorem auth0_grant_mapping
    (self : Auth0TokenVerifier.t) (tok : string) (k : Key) (p : payload_t)
    (s c : string) (e : Z) :
  get_key (Auth0TokenVerifier.jwks_client self) tok = Ok k ->
  decode tok k (Auth0TokenVerifier.algorithms self)
    (Auth0TokenVerifier.issuer self) (Auth0TokenVerifier.audience self)
    required = Ok p ->
  p !! "scope" = Some (JStr s) ->
  p !! "sub" = Some (JStr c) ->
  p !! "exp" = Some (JNum e) ->
  auth0 self tok =
  Ok (Some {| token := tok; client_id := c; scopes := str_split s;
              expires_at := Some e |}).
Proof.
  intros Hk Hd Hscope Hsub Hexp.
  rewrite auth0_unfold, Hk. simpl. rewrite Hd. simpl.
  unfold auth0_normalize, dict_get. rewrite Hscope, Hsub, Hexp.
  rewrite truthy_str. unfold new_AccessToken.
  cbn [rbind as_str as_str_list].
  rewrite as_str_items_fmap. reflexivity.
Qed.








(** C8, as the code has it.  A payload with no scope claim at all
  ([scope] for Auth0, [scp] for Okta) that passed validation, and whose
  client id claim is a string ([sub] for Auth0; for Okta [cid] when the
  payload has one, else [sub], else the literal ["unknown"]), gives a
  grant with no scopes: the missing scope claim causes no rejection and no
  error. *)
Theorem missing_scope_empty_grant
    (a0 : Auth0TokenVerifier.t) (o0 : OktaTokenVerifier.t) (tok : string)
    (k : Key) (p : payload_t) (ca co : string) (e : Z) :
  p !! "exp" = Some (JNum e) ->
  (get_key (Auth0TokenVerifier.jwks_client a0) tok = Ok k ->
   decode tok k (Auth0TokenVerifier.algorithms a0)
     (Auth0TokenVerifier.issuer a0) (Auth0TokenVerifier.audience a0)
     required = Ok p ->
   p !! "scope" = None ->
   p !! "sub" = Some (JStr ca) ->
   auth0 a0 tok =
   Ok (Some {| token := tok; client_id := ca; scopes := [];
               expires_at := Some e |})) /\
  (get_key (OktaTokenVerifier.jwks_client o0) tok = Ok k ->
   decode tok k (OktaTokenVerifier.algorithms o0)
     (OktaTokenVerifier.issuer o0) (OktaTokenVerifier.audience o0)
     required = Ok p ->
   p !! "scp" = None ->
   okta_client_rule p = Some co ->
   okta o0 tok =
   Ok (Some {| token := tok; client_id := co; scopes := [];
               expires_at := Some e |})).
Proof.
  intros Hexp. split.
  - intros Hk Hd Hscope Hsub.
    rewrite auth0_unfold, Hk. simpl. rewrite Hd. simpl.
    unfold auth0_normalize, dict_get. rewrite Hscope, Hsub, Hexp.
    reflexivity.
  - intros Hk Hd Hscp Hcid.
    rewrite okta_unfold, Hk. simpl. rewrite Hd. simpl.
    unfold okta_normalize, dict_get. rewrite Hscp, Hexp.
    unfold okta_client_rule in Hcid.
    destruct (p !! "cid") as [[]|]; try discriminate.
    + injection Hcid as <-. reflexivity.
    + destruct (p !! "sub") as [[]|]; try discriminate;
        injection Hcid as <-; reflexivity.
Qed.
End AnyCollaborators.

(** ** Instances of the above on the test vectors *)

Lemma verify_token_uniform_rejection_witness :
  Auth0TokenVerifier.verify_token Vectors.one_key
    (jwt_decode
       (Vectors.toy_load "RS256" (Vectors.auth0_claims Vectors.clock None))
       Vectors.toy_sig Vectors.clock)
    Vectors.a0 "tok" = Ok None /\
  OktaTokenVerifier.verify_token Vectors.one_key
    (jwt_decode
       (Vectors.toy_load "RS256" (Vectors.auth0_claims (Vectors.clock + 60) None))
       Vectors.toy_sig Vectors.clock)
    Vectors.o0 "tok" = Ok None.
Proof.
  split.
  - destruct (verify_token_uniform_rejection Vectors.one_key
                (jwt_decode
                   (Vectors.toy_load "RS256"
                      (Vectors.auth0_claims Vectors.clock None))
                   Vectors.toy_sig Vectors.clock)
                Vectors.a0 Vectors.o0 "tok") as (_ & _ & Ha & _).
    apply (Ha ExpiredSignatureError). vm_compute. reflexivity.
  - destruct (verify_token_uniform_rejection Vectors.one_key
                (jwt_decode
                   (Vectors.toy_load "RS256"
                      (Vectors.auth0_claims (Vectors.clock + 60) None))
                   Vectors.toy_sig Vectors.clock)
                Vectors.a0 Vectors.o0 "tok") as (_ & _ & _ & _ & _ & _ & _ & Ho).
    apply (Ho "key-1" InvalidIssuerError); vm_compute; reflexivity.
Defined.

(** An error nobody anticipated is swallowed like the others: a [scope] claim
  that is a list has no [split], and the Auth0 verifier answers [None]. *)
Example auth0_list_scope_rejected :
  Auth0TokenVerifier.verify_token Vectors.one_key
    (Vectors.verified (<[ "scope" := JList [JStr "read"] ]> Vectors.payload_a))
    Vectors.a0 "tok" = Ok None.
Proof. vm_compute. reflexivity. Qed.

(** C2, as stated, fails: a token that passes every check and whose
  payload names the scope [read] twice gives a grant that lists [read]
  twice, for either provider. *)
Lemma scopes_not_duplicate_free :
  (exists g,
     Auth0TokenVerifier.verify_token Vectors.one_key
       (jwt_decode
          (Vectors.toy_load "RS256"
             (Vectors.auth0_claims (Vectors.clock + 3600)
                (Some (JStr "read read"))))
          Vectors.toy_sig Vectors.clock)
       Vectors.a0 "tok" = Ok (Some g) /\
     scopes g = ["read"; "read"] /\ ~ NoDup (scopes g)) /\
  (exists g,
     OktaTokenVerifier.verify_token Vectors.one_key
       (jwt_decode
          (Vectors.toy_load "RS256"
             (Vectors.okta_claims (Vectors.clock + 3600)
                (Some (JList [JStr "read"; JStr "read"]))
                (Some (JStr "0oaXYZ"))))
          Vectors.toy_sig Vectors.clock)
       Vectors.o0 "tok" = Ok (Some g) /\
     scopes g = ["read"; "read"] /\ ~ NoDup (scopes g)).
Proof.
  assert (~ NoDup ["read"; "read"]) as Hdup.
  { intros H. apply NoDup_cons_1_1 in H. apply H. left. }
  split; eexists; (split; [vm_compute; reflexivity|]); split;
    [reflexivity|exact Hdup|reflexivity|exact Hdup].
Qed.

Lemma scopes_repeat_as_claimed_witness :
  let g := {| token := "tok"; client_id := "auth0|abc123";
              scopes := ["read"; "read"];
              expires_at := Some (Vectors.clock + 3600) |} in
  Auth0TokenVerifier.verify_token Vectors.one_key
    (Vectors.verified Vectors.payload_a_twice) Vectors.a0 "tok" = Ok (Some g) /\
  exists k p,
    Vectors.one_key (Auth0TokenVerifier.jwks_client Vectors.a0) "tok" = Ok k /\
    Vectors.verified Vectors.payload_a_twice "tok" k
      (Auth0TokenVerifier.algorithms Vectors.a0)
      (Auth0TokenVerifier.issuer Vectors.a0)
      (Auth0TokenVerifier.audience Vectors.a0)
      ["exp"; "iss"; "aud"; "sub"] = Ok p /\
    scopes g = auth0_claimed_scopes p /\
    (NoDup (scopes g) <-> NoDup (auth0_claimed_scopes p)).
Proof.
  intros g.
  assert (Auth0TokenVerifier.verify_token Vectors.one_key
            (Vectors.verified Vectors.payload_a_twice) Vectors.a0 "tok"
          = Ok (Some g)) as H by (vm_compute; reflexivity).
  split; [exact H|].
  exact (proj1 (scopes_repeat_as_claimed Vectors.one_key
                  (Vectors.verified Vectors.payload_a_twice)
                  Vectors.a0 Vectors.o0 "tok" g) H).
Defined.

Lemma auth0_grant_mapping_witness :
  Auth0TokenVerifier.verify_token Vectors.one_key
    (Vectors.verified Vectors.payload_a) Vectors.a0 "tok"
  = Ok (Some {| token := "tok"; client_id := "auth0|abc123";
                scopes := ["read"; "write"];
                expires_at := Some (Vectors.clock + 3600) |}).
Proof.
  apply (auth0_grant_mapping Vectors.one_key (Vectors.verified Vectors.payload_a)
           Vectors.a0 "tok" "key-1" Vectors.payload_a "read write"
           "auth0|abc123" (Vectors.clock + 3600));
    vm_compute; reflexivity.
Defined.



(** C8, as stated, fails: an Okta token that passes every check of the
  validator and has no [scp] claim, but whose [cid] claim is a number, is
  rejected instead of being granted with no scopes. *)
Lemma scopeless_token_not_granted :
  let p := Vectors.okta_claims (Vectors.clock + 3600) None (Some (JNum 42)) in
  p !! "scp" = None /\
  jwt_decode (Vectors.toy_load "RS256" p) Vectors.toy_sig Vectors.clock
    "tok" "key-1" (OktaTokenVerifier.algorithms Vectors.o0)
    (OktaTokenVerifier.issuer Vectors.o0)
    (OktaTokenVerifier.audience Vectors.o0)
    ["exp"; "iss"; "aud"; "sub"] = Ok p /\
  OktaTokenVerifier.verify_token Vectors.one_key
    (jwt_decode (Vectors.toy_load "RS256" p) Vectors.toy_sig Vectors.clock)
    Vectors.o0 "tok" = Ok None.
Proof. repeat split; vm_compute; reflexivity. Qed.

Lemma missing_scope_empty_grant_witness :
  Auth0TokenVerifier.verify_token Vectors.one_key
    (Vectors.verified Vectors.payload_bare) Vectors.a0 "tok"
  = Ok (Some {| token := "tok"; client_id := "auth0|abc123"; scopes := [];
                expires_at := Some (Vectors.clock + 3600) |}) /\
  OktaTokenVerifier.verify_token Vectors.one_key
    (Vectors.verified Vectors.payload_bare) Vectors.o0 "tok"
  = Ok (Some {| token := "tok"; client_id := "auth0|abc123"; scopes := [];
                expires_at := Some (Vectors.clock + 3600) |}).
Proof.
  destruct (missing_scope_empty_grant Vectors.one_key
              (Vectors.verified Vectors.payload_bare) Vectors.a0 Vectors.o0
              "tok" "key-1" Vectors.payload_bare "auth0|abc123" "auth0|abc123"
              (Vectors.clock + 3600)) as [Ha Ho];
    [vm_compute; reflexivity |].
  split; [apply Ha | apply Ho]; vm_compute; reflexivity.
Defined.

(** The two fallbacks of Provider B's client id. *)
Example okta_client_falls_back_to_sub :
  client_id <$>
    match OktaTokenVerifier.verify_token Vectors.one_key
            (Vectors.verified Vectors.payload_bare) Vectors.o0 "tok" with
    | Ok g => g
    | Raise _ => None
    end = Some "auth0|abc123".
Proof. vm_compute. reflexivity. Qed.

Example okta_client_falls_back_to_unknown :
  client_id <$>
    match OktaTokenVerifier.verify_token Vectors.one_key
            (Vectors.verified (delete "sub" Vectors.payload_bare))
            Vectors.o0 "tok" with
    | Ok g => g
    | Raise _ => None
    end = Some "unknown".
Proof. vm_compute. reflexivity. Qed.

(** ** The verifiers over the claims validator *)
Section ValidatedTokens.
Context {Key : Type}.
Variable get_key : PyJWKClient -> string -> result Key.
Variable load : string -> result jws.
Variable sig_ok : string -> Key -> string -> string -> bool.
Variable now : Z.

Abbreviation decode := (jwt_decode load sig_ok now).
Abbreviation auth0 := (Auth0TokenVerifier.verify_token get_key decode).
Abbreviation okta := (OktaTokenVerifier.verify_token get_key decode).
Abbreviation required := ["exp"; "iss"; "aud"; "sub"]%list.

Lemma jwt_decode_inv (tok : string) (k : Key) (algorithms : list string)
    (issuer audience : string) (require : list string) (p : payload_t) :
  decode tok k algorithms issuer audience require = Ok p ->
  exists t a,
    load tok = Ok t /\
    check_algorithm algorithms (header t) = Ok a /\
    check_signature sig_ok a k t = Ok () /\
    claims t = JObj p /\
    check_required require p = Ok () /\
    check_issuer issuer p = Ok () /\
    check_audience audience p = Ok () /\
    check_expiry now p = Ok ().
Proof.
  unfold jwt_decode. intros H.
  destruct (load tok) as [t|] eqn:Ht; simpl in H; [|discriminate].
  destruct (check_algorithm algorithms (header t)) as [a|] eqn:Ha;
    simpl in H; [|discriminate].
  destruct (check_signature sig_ok a k t) as [[]|] eqn:Hs;
    simpl in H; [|discriminate].
  destruct (claims t) as [| | | | |q] eqn:Hc; simpl in H; try discriminate.
  destruct (check_required require q) as [[]|] eqn:Hr;
    simpl in H; [|discriminate].
  destruct (check_issuer issuer q) as [[]|] eqn:Hi; simpl in H; [|discriminate].
  destruct (check_audience audience q) as [[]|] eqn:Hau;
    simpl in H; [|discriminate].
  destruct (check_expiry now q) as [[]|] eqn:He; simpl in H; [|discriminate].
  injection H as <-. exists t, a. auto 10.
Qed.

Lemma jwt_decode_checks (tok : string) (k : Key) (algorithms : list string)
    (issuer audience : string) (require : list string)
    (t : jws) (a : string) (p : payload_t) :
  load tok = Ok t ->
  check_algorithm algorithms (header t) = Ok a ->
  check_signature sig_ok a k t = Ok () ->
  claims t = JObj p ->
  check_required require p = Ok () ->
  check_issuer issuer p = Ok () ->
  check_audience audience p = Ok () ->
  decode tok k algorithms issuer audience require
  = (let* _ := check_expiry now p in Ok p).
Proof.
  intros Ht Ha Hs Hc Hr Hi Hau. unfold jwt_decode.
  rewrite Ht. simpl. rewrite Ha. simpl. rewrite Hs. simpl.
  rewrite Hc. simpl. rewrite Hr. simpl. rewrite Hi. simpl.
  rewrite Hau. reflexivity.
Qed.

Lemma check_required_present (require : list string) (p : payload_t) :
  check_required require p = Ok () ->
  forall c, c ∈ require -> present p c = true.
Proof.
  induction require as [|c0 require IH]; simpl; intros H c Hc.
  - inversion Hc.
  - destruct (present p c0) eqn:Hp; [|discriminate].
    apply elem_of_cons in Hc as [->|Hc]; auto.
Qed.

Lemma present_is_Some (p : payload_t) (c : string) :
  present p c = true -> is_Some (p !! c).
Proof.
  unfold present. destruct (p !! c); [eauto|discriminate].
Qed.

Lemma check_algorithm_allowed (algorithms : list string)
    (h : gmap string json) (a : string) :
  check_algorithm algorithms h = Ok a ->
  h !! "alg" = Some (JStr a) /\ a ∈ algorithms.
Proof.
  unfold check_algorithm.
  destruct (h !! "alg") as [[]|]; try discriminate.
  destruct (bool_decide _) eqn:Hin; [|discriminate].
  intros [= <-]. split; [reflexivity|].
  apply bool_decide_eq_true in Hin. exact Hin.
Qed.

(** A failing [jwt.decode] makes either verifier return [None]. *)
Lemma auth0_rejects_when_decode_fails (self : Auth0TokenVerifier.t) (tok : string) :
  (forall k, exists e,
     decode tok k (Auth0TokenVerifier.algorithms self)
       (Auth0TokenVerifier.issuer self) (Auth0TokenVerifier.audience self)
       required = Raise e) ->
  auth0 self tok = Ok None.
Proof.
  intros H. rewrite auth0_unfold.
  destruct (get_key _ tok) as [k|]; simpl; [|reflexivity].
  destruct (H k) as [e ->]. reflexivity.
Qed.

Lemma okta_rejects_when_decode_fails (self : OktaTokenVerifier.t) (tok : string) :
  (forall k, exists e,
     decode tok k (OktaTokenVerifier.algorithms self)
       (OktaTokenVerifier.issuer self) (OktaTokenVerifier.audience self)
       required = Raise e) ->
  okta self tok = Ok None.
Proof.
  intros H. rewrite okta_unfold.
  destruct (get_key _ tok) as [k|]; simpl; [|reflexivity].
  destruct (H k) as [e ->]. reflexivity.
Qed.

Lemma decode_fails_or (tok : string) (k : Key) (algorithms : list string)
    (issuer audience : string) (require : list string) :
  (forall p, decode tok k algorithms issuer audience require = Ok p -> False) ->
  exists e, decode tok k algorithms issuer audience require = Raise e.
Proof.
  intros H. destruct (decode tok k algorithms issuer audience require) as [p|e].
  - destruct (H p eq_refl).
  - eauto.
Qed.

(** C3. Take a token that passes every check other than the expiry check
  and whose payload normalises to the grant [ga] (Auth0) or [go] (Okta).
  If its [exp] claim equals the current time it is rejected; if its [exp]
  claim is one second after the current time it is accepted; in general it
  is accepted exactly when the current time is before [exp]: no leeway is
  added to the comparison. *)
Theorem expiry_boundary
    (a0 : Auth0TokenVerifier.t) (o0 : OktaTokenVerifier.t) (tok : string)
    (p : payload_t) (e : Z) (ga go : AccessToken) :
  p !! "exp" = Some (JNum e) ->
  (passes_all_but_expiry get_key load sig_ok
     (Auth0TokenVerifier.jwks_client a0) (Auth0TokenVerifier.algorithms a0)
     (Auth0TokenVerifier.issuer a0) (Auth0TokenVerifier.audience a0)
     required tok p ->
   auth0_normalize tok p = Ok ga ->
   (e = now -> auth0 a0 tok = Ok None) /\
   (e = now + 1 -> auth0 a0 tok = Ok (Some ga)) /\
   (auth0 a0 tok = Ok (Some ga) <-> now < e) /\
   (auth0 a0 tok = Ok None <-> e <= now)) /\
  (passes_all_but_expiry get_key load sig_ok
     (OktaTokenVerifier.jwks_client o0) (OktaTokenVerifier.algorithms o0)
     (OktaTokenVerifier.issuer o0) (OktaTokenVerifier.audience o0)
     required tok p ->
   okta_normalize tok p = Ok go ->
   (e = now -> okta o0 tok = Ok None) /\
   (e = now + 1 -> okta o0 tok = Ok (Some go)) /\
   (okta o0 tok = Ok (Some go) <-> now < e) /\
   (okta o0 tok = Ok None <-> e <= now)).
Proof.
  intros Hexp. split.
  - intros (k & t & a & Hk & Ht & Ha & Hs & Hc & Hr & Hi & Hau) Hn.
    assert (auth0 a0 tok = if e <=? now then Ok None else Ok (Some ga)) as E.
    { rewrite auth0_unfold, Hk. simpl.
      rewrite (jwt_decode_checks _ _ _ _ _ _ t a p) by assumption.
      unfold check_expiry. rewrite Hexp.
      destruct (e <=? now); simpl; [reflexivity|]. rewrite Hn. reflexivity. }
    rewrite E. repeat split.
    + intros ->. rewrite Z.leb_refl. reflexivity.
    + intros ->. destruct (Z.leb_spec (now + 1) now); [lia|reflexivity].
    + destruct (Z.leb_spec e now); [discriminate|auto].
    + intros ?. destruct (Z.leb_spec e now); [lia|reflexivity].
    + destruct (Z.leb_spec e now); [auto|discriminate].
    + intros ?. destruct (Z.leb_spec e now); [reflexivity|lia].
  - intros (k & t & a & Hk & Ht & Ha & Hs & Hc & Hr & Hi & Hau) Hn.
    assert (okta o0 tok = if e <=? now then Ok None else Ok (Some go)) as E.
    { rewrite okta_unfold, Hk. simpl.
      rewrite (jwt_decode_checks _ _ _ _ _ _ t a p) by assumption.
      unfold check_expiry. rewrite Hexp.
      destruct (e <=? now); simpl; [reflexivity|]. rewrite Hn. reflexivity. }
    rewrite E. repeat split.
    + intros ->. rewrite Z.leb_refl. reflexivity.
    + intros ->. destruct (Z.leb_spec (now + 1) now); [lia|reflexivity].
    + destruct (Z.leb_spec e now); [discriminate|auto].
    + intros ?. destruct (Z.leb_spec e now); [lia|reflexivity].
    + destruct (Z.leb_spec e now); [auto|discriminate].
    + intros ?. destruct (Z.leb_spec e now); [reflexivity|lia].
Qed.

(** C4. The allowed algorithm set of a constructed verifier is the constant
  list holding [RS256] alone, whatever the constructor's arguments; and a
  token whose header does not declare [RS256] is rejected by both
  verifiers, whatever its claims and whatever the signature check says. *)
Theorem rs256_only
    (domain audience server : string) (tok : string) (t : jws) :
  load tok = Ok t ->
  header t !! "alg" <> Some (JStr "RS256") ->
  Auth0TokenVerifier.algorithms (Auth0TokenVerifier.init domain audience)
  = ["RS256"] /\
  OktaTokenVerifier.algorithms (OktaTokenVerifier.init domain audience server)
  = ["RS256"] /\
  auth0 (Auth0TokenVerifier.init domain audience) tok = Ok None /\
  okta (OktaTokenVerifier.init domain audience server) tok = Ok None.
Proof.
  intros Ht Halg.
  assert (forall k iss aud,
            exists e, decode tok k ["RS256"] iss aud required = Raise e) as Hd.
  { intros k iss aud. apply decode_fails_or. intros p Hp.
    apply jwt_decode_inv in Hp as (t' & a & Ht' & Ha & _).
    rewrite Ht in Ht'. injection Ht' as <-.
    apply check_algorithm_allowed in Ha as [Hh Hin].
    apply list_elem_of_singleton in Hin as ->. contradiction. }
  repeat split.
  - apply auth0_rejects_when_decode_fails. intros k. apply Hd.
  - apply okta_rejects_when_decode_fails. intros k. apply Hd.
Qed.

(** C5. A token whose payload lacks [exp], [iss], [aud] or [sub] is
  rejected by both verifiers, whatever the signature check says of it; and
  whenever a grant is returned, all four claims are present in the
  payload. *)
Theorem required_claims_enforced
    (a0 : Auth0TokenVerifier.t) (o0 : OktaTokenVerifier.t) (tok : string)
    (t : jws) (p : payload_t) :
  load tok = Ok t ->
  claims t = JObj p ->
  (forall c, c ∈ required -> p !! c = None ->
     auth0 a0 tok = Ok None /\ okta o0 tok = Ok None) /\
  (forall g, auth0 a0 tok = Ok (Some g) \/ okta o0 tok = Ok (Some g) ->
     forall c, c ∈ required -> present p c = true).
Proof.
  intros Ht Hc.
  assert (forall k algs iss aud q,
            decode tok k algs iss aud required = Ok q ->
            forall c, c ∈ required -> present p c = true) as Hd.
  { intros k algs iss aud q Hq.
    apply jwt_decode_inv in Hq as (t' & a & Ht' & _ & _ & Hc' & Hr & _).
    rewrite Ht in Ht'. injection Ht' as <-.
    rewrite Hc in Hc'. injection Hc' as <-.
    apply check_required_present, Hr. }
  split.
  - intros c Hin Hnone.
    assert (forall k algs iss aud,
              exists e, decode tok k algs iss aud required = Raise e) as Hf.
    { intros k algs iss aud. apply decode_fails_or. intros q Hq.
      specialize (Hd k algs iss aud q Hq c Hin).
      unfold present in Hd. rewrite Hnone in Hd. discriminate. }
    split.
    + apply auth0_rejects_when_decode_fails. intros k. apply Hf.
    + apply okta_rejects_when_decode_fails. intros k. apply Hf.
  - intros g [Hg|Hg].
    + apply auth0_grant_inv in Hg as (k & q & _ & Hq & _). eapply Hd, Hq.
    + apply okta_grant_inv in Hg as (k & q & _ & Hq & _). eapply Hd, Hq.
Qed.

(** C10. [sub] is among the claims required before the payload is
  normalised, so the default of [payload.get("sub", "unknown")] is never
  used.  Every grant of the Auth0 verifier has the payload's [sub] claim as
  client id; every grant of the Okta verifier has the [cid] claim when the
  payload has one, and the [sub] claim otherwise. *)
Theorem fallback_client_id_unreachable
    (a0 : Auth0TokenVerifier.t) (o0 : OktaTokenVerifier.t) (tok : string)
    (g : AccessToken) :
  (auth0 a0 tok = Ok (Some g) ->
   exists t p,
     load tok = Ok t /\ claims t = JObj p /\
     p !! "sub" = Some (JStr (client_id g))) /\
  (okta o0 tok = Ok (Some g) ->
   exists t p,
     load tok = Ok t /\ claims t = JObj p /\
     present p "sub" = true /\
     match p !! "cid" with
     | Some v => v = JStr (client_id g)
     | None => p !! "sub" = Some (JStr (client_id g))
     end).
Proof.
  split; intros Hg.
  - apply auth0_grant_inv in Hg as (k & p & _ & Hp & Hn).
    apply jwt_decode_inv in Hp as (t & a & Ht & _ & _ & Hc & Hr & _).
    apply auth0_normalize_inv in Hn as (_ & Hsub & _).
    exists t, p. split; [exact Ht|]. split; [exact Hc|].
    pose proof (check_required_present _ _ Hr "sub") as Hpr.
    unfold present in Hpr. unfold dict_get in Hsub.
    destruct (p !! "sub") as [v|]; [congruence|].
    assert (false = true) by (apply Hpr; set_solver). discriminate.
  - apply okta_grant_inv in Hg as (k & p & _ & Hp & Hn).
    apply jwt_decode_inv in Hp as (t & a & Ht & _ & _ & Hc & Hr & _).
    apply okta_normalize_inv in Hn as (_ & Hcid & _).
    exists t, p. split; [exact Ht|]. split; [exact Hc|].
    pose proof (check_required_present _ _ Hr "sub") as Hpr.
    assert (present p "sub" = true) as Hsub by (apply Hpr; set_solver).
    split; [exact Hsub|].
    unfold dict_get in Hcid. unfold present in Hsub.
    destruct (p !! "cid") as [v|]; [exact Hcid|].
    destruct (p !! "sub") as [v|]; [congruence|discriminate].
Qed.
End ValidatedTokens.

(** ** Instances on signed test tokens *)

Lemma expiry_boundary_witness :
  Auth0TokenVerifier.verify_token Vectors.one_key
    (jwt_decode
       (Vectors.toy_load "RS256" (Vectors.auth0_claims Vectors.clock None))
       Vectors.toy_sig Vectors.clock)
    Vectors.a0 "tok" = Ok None /\
  Auth0TokenVerifier.verify_token Vectors.one_key
    (jwt_decode
       (Vectors.toy_load "RS256" (Vectors.auth0_claims (Vectors.clock + 1) None))
       Vectors.toy_sig Vectors.clock)
    Vectors.a0 "tok"
  = Ok (Some {| token := "tok"; client_id := "auth0|abc123"; scopes := [];
                expires_at := Some (Vectors.clock + 1) |}) /\
  OktaTokenVerifier.verify_token Vectors.one_key
    (jwt_decode
       (Vectors.toy_load "RS256"
          (Vectors.okta_claims Vectors.clock None (Some (JStr "0oaXYZ"))))
       Vectors.toy_sig Vectors.clock)
    Vectors.o0 "tok" = Ok None.
Proof.
  pose (ga := {| token := "tok"; client_id := "auth0|abc123"; scopes := [];
                 expires_at := Some Vectors.clock |}).
  pose (ga1 := {| token := "tok"; client_id := "auth0|abc123"; scopes := [];
                  expires_at := Some (Vectors.clock + 1) |}).
  pose (go := {| token := "tok"; client_id := "0oaXYZ"; scopes := [];
                 expires_at := Some Vectors.clock |}).
  split; [|split].
  - refine (proj1 (proj1 (expiry_boundary Vectors.one_key
              (Vectors.toy_load "RS256" (Vectors.auth0_claims Vectors.clock None))
              Vectors.toy_sig Vectors.clock Vectors.a0 Vectors.o0 "tok"
              (Vectors.auth0_claims Vectors.clock None) Vectors.clock ga go _)
              _ _) _);
      [vm_compute; reflexivity | | vm_compute; reflexivity | reflexivity].
    exists "key-1",
      {| header := {[ "alg" := JStr "RS256" ]};
         claims := JObj (Vectors.auth0_claims Vectors.clock None);
         signing_input := "tok"; signature := "key-1/RS256" |}, "RS256".
    repeat split; vm_compute; reflexivity.
  - refine (proj1 (proj2 (proj1 (expiry_boundary Vectors.one_key
              (Vectors.toy_load "RS256"
                 (Vectors.auth0_claims (Vectors.clock + 1) None))
              Vectors.toy_sig Vectors.clock Vectors.a0 Vectors.o0 "tok"
              (Vectors.auth0_claims (Vectors.clock + 1) None)
              (Vectors.clock + 1) ga1 go _) _ _)) _);
      [vm_compute; reflexivity | | vm_compute; reflexivity | reflexivity].
    exists "key-1",
      {| header := {[ "alg" := JStr "RS256" ]};
         claims := JObj (Vectors.auth0_claims (Vectors.clock + 1) None);
         signing_input := "tok"; signature := "key-1/RS256" |}, "RS256".
    repeat split; vm_compute; reflexivity.
  - refine (proj1 (proj2 (expiry_boundary Vectors.one_key
              (Vectors.toy_load "RS256"
                 (Vectors.okta_claims Vectors.clock None (Some (JStr "0oaXYZ"))))
              Vectors.toy_sig Vectors.clock Vectors.a0 Vectors.o0 "tok"
              (Vectors.okta_claims Vectors.clock None (Some (JStr "0oaXYZ")))
              Vectors.clock ga go _) _ _) _);
      [vm_compute; reflexivity | | vm_compute; reflexivity | reflexivity].
    exists "key-1",
      {| header := {[ "alg" := JStr "RS256" ]};
         claims := JObj (Vectors.okta_claims Vectors.clock None
                           (Some (JStr "0oaXYZ")));
         signing_input := "tok"; signature := "key-1/RS256" |}, "RS256".
    repeat split; vm_compute; reflexivity.
Defined.

Lemma rs256_only_witness :
  Auth0TokenVerifier.verify_token Vectors.one_key
    (jwt_decode
       (Vectors.toy_load "HS256"
          (Vectors.auth0_claims (Vectors.clock + 3600) (Some (JStr "read"))))
       Vectors.toy_sig Vectors.clock)
    Vectors.a0 "tok" = Ok None.
Proof.
  refine (proj1 (proj2 (proj2 (rs256_only Vectors.one_key
            (Vectors.toy_load "HS256"
               (Vectors.auth0_claims (Vectors.clock + 3600) (Some (JStr "read"))))
            Vectors.toy_sig Vectors.clock Vectors.domain Vectors.api "default"
            "tok" _ eq_refl _)))).
  vm_compute. discriminate.
Defined.

Lemma required_claims_enforced_witness :
  Auth0TokenVerifier.verify_token Vectors.one_key
    (jwt_decode (Vectors.toy_load "RS256" Vectors.no_sub)
       Vectors.toy_sig Vectors.clock)
    Vectors.a0 "tok" = Ok None /\
  OktaTokenVerifier.verify_token Vectors.one_key
    (jwt_decode (Vectors.toy_load "RS256" Vectors.no_sub)
       Vectors.toy_sig Vectors.clock)
    Vectors.o0 "tok" = Ok None.
Proof.
  refine (proj1 (required_claims_enforced Vectors.one_key
            (Vectors.toy_load "RS256" Vectors.no_sub)
            Vectors.toy_sig Vectors.clock Vectors.a0 Vectors.o0 "tok" _
            Vectors.no_sub eq_refl eq_refl) "sub" _ _).
  - set_solver.
  - vm_compute. reflexivity.
Defined.

Lemma fallback_client_id_unreachable_witness :
  let p := Vectors.auth0_claims (Vectors.clock + 3600) (Some (JStr "read")) in
  exists t q,
    Vectors.toy_load "RS256" p "tok" = Ok t /\ claims t = JObj q /\
    q !! "sub" = Some (JStr "auth0|abc123").
Proof.
  intros p.
  refine (proj1 (fallback_client_id_unreachable Vectors.one_key
            (Vectors.toy_load "RS256" p) Vectors.toy_sig Vectors.clock
            Vectors.a0 Vectors.o0 "tok"
            {| token := "tok"; client_id := "auth0|abc123";
               scopes := ["read"]; expires_at := Some (Vectors.clock + 3600) |})
            _).
  vm_compute. reflexivity.
Defined.

(** * Further properties of the verifiers *)

(** ** Words of [str.split()] *)

Lemma flush_words (w : list ascii) (k : list string) :
  no_space w -> Forall scope_word k -> Forall scope_word (flush w k).
Proof.
  intros Hw Hk. destruct w as [|c w]; [exact Hk|].
  unfold flush. constructor; [|exact Hk]. split.
  - intros E. apply (f_equal list_ascii_of_string) in E.
    rewrite list_ascii_of_string_of_list_ascii in E. simpl in E.
    destruct (rev w); discriminate.
  - rewrite list_ascii_of_string_of_list_ascii.
    unfold no_space in *. apply Forall_rev. exact Hw.
Qed.

Lemma split_from_words (s : string) :
  forall w, no_space w -> Forall scope_word (split_from w s).
Proof.
  induction s as [|c s IH]; intros w Hw; simpl.
  - apply flush_words; [exact Hw|constructor].
  - destruct (isspace c) eqn:Hc.
    + apply flush_words; [exact Hw|]. apply IH. constructor.
    + apply IH. constructor; assumption.
Qed.

Lemma str_split_words (s : string) : Forall scope_word (str_split s).
Proof. apply split_from_words. constructor. Qed.

Lemma flush_nil (w : list ascii) (k : list string) :
  flush w k = [] <-> w = [] /\ k = [].
Proof.
  destruct w; simpl; split; try tauto.
  - discriminate.
  - intros [? _]. discriminate.
Qed.

Lemma split_from_nil (s : string) :
  forall w, split_from w s = [] <-> w = [] /\ blank s.
Proof.
  unfold blank.
  induction s as [|c s IH]; intros w; simpl.
  - rewrite flush_nil. split; intros [? ?]; split; auto.
  - destruct (isspace c) eqn:Hc.
    + rewrite flush_nil, IH. split.
      * intros (-> & _ & Hs). split; [reflexivity|]. constructor; assumption.
      * intros (-> & Hs). inversion Hs; subst. auto.
    + rewrite IH. split.
      * intros [? _]. discriminate.
      * intros (_ & Hs). inversion Hs; subst. congruence.
Qed.

Lemma str_split_nil (s : string) : str_split s = [] <-> blank s.
Proof.
  unfold str_split. rewrite split_from_nil. tauto.
Qed.

Section GrantsOfAnyCollaborators.
Context {Key : Type}.
Variable get_key : PyJWKClient -> string -> result Key.
Variable decode :
  string -> Key -> list string -> string -> string -> list string ->
  result payload_t.

Abbreviation auth0 := (Auth0TokenVerifier.verify_token get_key decode).
Abbreviation okta := (OktaTokenVerifier.verify_token get_key decode).
Abbreviation required := ["exp"; "iss"; "aud"; "sub"]%list.

(** What [expires_at] is read from. *)
Lemma as_opt_int_exp (p : payload_t) (x : option Z) :
  as_opt_int "expires_at" (dict_get p "exp" JNull) = Ok x ->
  x = match p !! "exp" with Some (JNum e) => Some e | _ => None end.
Proof.
  unfold dict_get. destruct (p !! "exp") as [[]|]; simpl; congruence.
Qed.

(** X1. Every grant carries the bearer token it was asked about, unchanged,
    and its [expires_at] is the [exp] claim of the decoded payload (nothing
    when the payload has no [exp], or a null one).  Both verifiers. *)
Theorem grant_carries_token_and_expiry
    (a0 : Auth0TokenVerifier.t) (o0 : OktaTokenVerifier.t) (tok : string)
    (g : AccessToken) :
  (auth0 a0 tok = Ok (Some g) ->
   token g = tok /\
   exists k p,
     get_key (Auth0TokenVerifier.jwks_client a0) tok = Ok k /\
     decode tok k (Auth0TokenVerifier.algorithms a0)
       (Auth0TokenVerifier.issuer a0) (Auth0TokenVerifier.audience a0)
       required = Ok p /\
     expires_at g =
       match p !! "exp" with Some (JNum e) => Some e | _ => None end) /\
  (okta o0 tok = Ok (Some g) ->
   token g = tok /\
   exists k p,
     get_key (OktaTokenVerifier.jwks_client o0) tok = Ok k /\
     decode tok k (OktaTokenVerifier.algorithms o0)
       (OktaTokenVerifier.issuer o0) (OktaTokenVerifier.audience o0)
       required = Ok p /\
     expires_at g =
       match p !! "exp" with Some (JNum e) => Some e | _ => None end).
Proof.
  split; intros H.
  - apply auth0_grant_inv in H as (k & p & Hk & Hd & Hn).
    apply auth0_normalize_inv in Hn as (Ht & _ & _ & He).
    split; [exact Ht|]. exists k, p. auto using as_opt_int_exp.
  - apply okta_grant_inv in H as (k & p & Hk & Hd & Hn).
    apply okta_normalize_inv in Hn as (Ht & _ & _ & He).
    split; [exact Ht|]. exists k, p. auto using as_opt_int_exp.
Qed.

(** X2. Auth0: a [scope] claim that is truthy but not a string (a non-empty
    list, as Okta sends it, a non-zero number, [true], a non-empty object)
    has no [split]; the error is swallowed and the token is rejected, even
    though it passed validation. *)
Theorem auth0_nonstring_scope_rejected
    (self : Auth0TokenVerifier.t) (tok : string) (k : Key) (p : payload_t)
    (v : json) :
  get_key (Auth0TokenVerifier.jwks_client self) tok = Ok k ->
  decode tok k (Auth0TokenVerifier.algorithms self)
    (Auth0TokenVerifier.issuer self) (Auth0TokenVerifier.audience self)
    required = Ok p ->
  p !! "scope" = Some v ->
  truthy v = true ->
  isinstance_str v = false ->
  auth0 self tok = Ok None.
Proof.
  intros Hk Hd Hv Ht Hs.
  rewrite auth0_unfold, Hk. simpl. rewrite Hd. simpl.
  unfold auth0_normalize, dict_get. rewrite Hv, Ht.
  destruct v; try discriminate; reflexivity.
Qed.

(** X3. Auth0: a [scope] claim that is falsy, of whatever type (the empty
    string, [null], [0], [false], an empty list or object), is treated like
    a missing one: the grant has no scopes. *)
Theorem auth0_falsy_scope_no_scopes
    (self : Auth0TokenVerifier.t) (tok : string) (k : Key) (p : payload_t)
    (v : json) (c : string) (e : Z) :
  get_key (Auth0TokenVerifier.jwks_client self) tok = Ok k ->
  decode tok k (Auth0TokenVerifier.algorithms self)
    (Auth0TokenVerifier.issuer self) (Auth0TokenVerifier.audience self)
    required = Ok p ->
  p !! "scope" = Some v ->
  truthy v = false ->
  p !! "sub" = Some (JStr c) ->
  p !! "exp" = Some (JNum e) ->
  auth0 self tok =
  Ok (Some {| token := tok; client_id := c; scopes := [];
              expires_at := Some e |}).
Proof.
  intros Hk Hd Hv Ht Hsub Hexp.
  rewrite auth0_unfold, Hk. simpl. rewrite Hd. simpl.
  unfold auth0_normalize, dict_get. rewrite Hv, Ht, Hsub, Hexp.
  reflexivity.
Qed.

Lemma as_str_items_strings (f : string) (l : list json) (ss : list string) :
  as_str_items f l = Ok ss -> strings_of l = Some ss.
Proof.
  intros H. apply as_str_items_inv in H as ->. apply strings_of_strs.
Qed.

(** X4. Okta: an [scp] claim that is neither a string nor a list of strings
    ([null], a number, an object, a list holding a non-string) makes the
    verifier reject a token that passed validation. *)
Theorem okta_malformed_scp_rejected
    (self : OktaTokenVerifier.t) (tok : string) (k : Key) (p : payload_t)
    (v : json) :
  get_key (OktaTokenVerifier.jwks_client self) tok = Ok k ->
  decode tok k (OktaTokenVerifier.algorithms self)
    (OktaTokenVerifier.issuer self) (OktaTokenVerifier.audience self)
    required = Ok p ->
  p !! "scp" = Some v ->
  okta_scopes_rule p = None ->
  okta self tok = Ok None.
Proof.
  intros Hk Hd Hv Hrule.
  destruct (okta self tok) as [[g|]|e] eqn:E.
  - exfalso.
    apply okta_grant_inv in E as (k' & p' & Hk' & Hd' & Hn).
    rewrite Hk in Hk'. injection Hk' as <-.
    rewrite Hd in Hd'. injection Hd' as <-.
    apply okta_normalize_inv in Hn as (_ & _ & Hs & _).
    unfold okta_scopes_rule in Hrule. unfold dict_get in Hs.
    rewrite Hv in Hs, Hrule.
    destruct v; try contradiction; try discriminate.
    subst l. rewrite strings_of_strs in Hrule. discriminate.
  - reflexivity.
  - exfalso. rewrite okta_unfold in E.
    destruct (let* k := _ in _); discriminate.
Qed.

(** X5. A client id that is not a string is never coerced and never
    replaced by a fallback: Auth0 rejects a token whose [sub] is not a
    string; Okta rejects a token whose [cid] is present and not a string
    (be it [null]), whatever its [sub] is. *)
Theorem nonstring_client_id_rejected
    (a0 : Auth0TokenVerifier.t) (o0 : OktaTokenVerifier.t) (tok : string)
    (k : Key) (p : payload_t) (v : json) :
  isinstance_str v = false ->
  (get_key (Auth0TokenVerifier.jwks_client a0) tok = Ok k ->
   decode tok k (Auth0TokenVerifier.algorithms a0)
     (Auth0TokenVerifier.issuer a0) (Auth0TokenVerifier.audience a0)
     required = Ok p ->
   p !! "sub" = Some v ->
   auth0 a0 tok = Ok None) /\
  (get_key (OktaTokenVerifier.jwks_client o0) tok = Ok k ->
   decode tok k (OktaTokenVerifier.algorithms o0)
     (OktaTokenVerifier.issuer o0) (OktaTokenVerifier.audience o0)
     required = Ok p ->
   p !! "cid" = Some v ->
   okta o0 tok = Ok None).
Proof.
  intros Hv. split; intros Hk Hd Hc.
  - destruct (auth0 a0 tok) as [[g|]|e] eqn:E.
    + exfalso.
      apply auth0_grant_inv in E as (k' & p' & Hk' & Hd' & Hn).
      rewrite Hk in Hk'. injection Hk' as <-.
      rewrite Hd in Hd'. injection Hd' as <-.
      apply auth0_normalize_inv in Hn as (_ & Hs & _).
      unfold dict_get in Hs. rewrite Hc in Hs. subst v. discriminate.
    + reflexivity.
    + exfalso. rewrite auth0_unfold in E.
      destruct (let* k := _ in _); discriminate.
  - destruct (okta o0 tok) as [[g|]|e] eqn:E.
    + exfalso.
      apply okta_grant_inv in E as (k' & p' & Hk' & Hd' & Hn).
      rewrite Hk in Hk'. injection Hk' as <-.
      rewrite Hd in Hd'. injection Hd' as <-.
      apply okta_normalize_inv in Hn as (_ & Hs & _).
      unfold dict_get in Hs. rewrite Hc in Hs. subst v. discriminate.
    + reflexivity.
    + exfalso. rewrite okta_unfold in E.
      destruct (let* k := _ in _); discriminate.
Qed.

(** X6. Every scope of an Auth0 grant is a word: it is not empty and holds
    no whitespace.  (Okta's list-valued [scp] is passed on as it is, so this
    holds for Okta only when [scp] is a string.) *)
Theorem auth0_scopes_are_words
    (self : Auth0TokenVerifier.t) (tok : string) (g : AccessToken) :
  auth0 self tok = Ok (Some g) ->
  Forall scope_word (scopes g).
Proof.
  intros H.
  apply auth0_grant_inv in H as (k & p & _ & _ & Hn).
  apply auth0_normalize_inv in Hn as (_ & _ & Hs & _).
  rewrite Hs. destruct (dict_get p "scope" (JStr "")); try constructor.
  apply str_split_words.
Qed.

(** X7. Auth0: for a validated payload whose [scope] claim is a string, the
    grant has no scopes exactly when that string is blank (empty, or
    whitespace only). *)
Theorem auth0_no_scopes_iff_blank
    (self : Auth0TokenVerifier.t) (tok : string) (k : Key) (p : payload_t)
    (s : string) (g : AccessToken) :
  get_key (Auth0TokenVerifier.jwks_client self) tok = Ok k ->
  decode tok k (Auth0TokenVerifier.algorithms self)
    (Auth0TokenVerifier.issuer self) (Auth0TokenVerifier.audience self)
    required = Ok p ->
  p !! "scope" = Some (JStr s) ->
  auth0 self tok = Ok (Some g) ->
  (scopes g = [] <-> blank s).
Proof.
  intros Hk Hd Hs H.
  apply auth0_grant_inv in H as (k' & p' & Hk' & Hd' & Hn).
  rewrite Hk in Hk'. injection Hk' as <-.
  rewrite Hd in Hd'. injection Hd' as <-.
  apply auth0_normalize_inv in Hn as (_ & _ & Hsc & _).
  unfold dict_get in Hsc. rewrite Hs in Hsc. rewrite Hsc.
  apply str_split_nil.
Qed.
End GrantsOfAnyCollaborators.

(** ** Instances on the test vectors *)

Lemma grant_carries_token_and_expiry_witness :
  let g := {| token := "tok"; client_id := "auth0|abc123";
              scopes := ["read"; "write"];
              expires_at := Some (Vectors.clock + 3600) |} in
  token g = "tok" /\
  exists k p,
    Vectors.one_key (Auth0TokenVerifier.jwks_client Vectors.a0) "tok" = Ok k /\
    Vectors.verified Vectors.payload_a "tok" k
      (Auth0TokenVerifier.algorithms Vectors.a0)
      (Auth0TokenVerifier.issuer Vectors.a0)
      (Auth0TokenVerifier.audience Vectors.a0)
      ["exp"; "iss"; "aud"; "sub"] = Ok p /\
    expires_at g =
      match p !! "exp" with Some (JNum e) => Some e | _ => None end.
Proof.
  intros g.
  refine (proj1 (grant_carries_token_and_expiry Vectors.one_key
                   (Vectors.verified Vectors.payload_a)
                   Vectors.a0 Vectors.o0 "tok" g) _).
  vm_compute. reflexivity.
Defined.

Lemma auth0_nonstring_scope_rejected_witness :
  Auth0TokenVerifier.verify_token Vectors.one_key
    (Vectors.verified
       (<[ "scope" := JList [JStr "read"; JStr "write"] ]> Vectors.payload_a))
    Vectors.a0 "tok" = Ok None.
Proof.
  apply (auth0_nonstring_scope_rejected Vectors.one_key _ Vectors.a0 "tok"
           "key-1"
           (<[ "scope" := JList [JStr "read"; JStr "write"] ]> Vectors.payload_a)
           (JList [JStr "read"; JStr "write"]));
    vm_compute; reflexivity.
Defined.

Lemma auth0_falsy_scope_no_scopes_witness :
  Auth0TokenVerifier.verify_token Vectors.one_key
    (Vectors.verified (<[ "scope" := JNull ]> Vectors.payload_a))
    Vectors.a0 "tok"
  = Ok (Some {| token := "tok"; client_id := "auth0|abc123"; scopes := [];
                expires_at := Some (Vectors.clock + 3600) |}).
Proof.
  apply (auth0_falsy_scope_no_scopes Vectors.one_key _ Vectors.a0 "tok"
           "key-1" (<[ "scope" := JNull ]> Vectors.payload_a) JNull);
    vm_compute; reflexivity.
Defined.

Lemma okta_malformed_scp_rejected_witness :
  OktaTokenVerifier.verify_token Vectors.one_key
    (Vectors.verified
       (<[ "scp" := JList [JStr "read"; JNum 7] ]> Vectors.payload_b))
    Vectors.o0 "tok" = Ok None.
Proof.
  apply (okta_malformed_scp_rejected Vectors.one_key _ Vectors.o0 "tok"
           "key-1"
           (<[ "scp" := JList [JStr "read"; JNum 7] ]> Vectors.payload_b)
           (JList [JStr "read"; JNum 7]));
    vm_compute; reflexivity.
Defined.

Lemma nonstring_client_id_rejected_witness :
  Auth0TokenVerifier.verify_token Vectors.one_key
    (Vectors.verified (<[ "sub" := JNum 42 ]> Vectors.payload_a))
    Vectors.a0 "tok" = Ok None /\
  OktaTokenVerifier.verify_token Vectors.one_key
    (Vectors.verified
       (<[ "cid" := JNull ]> (<[ "sub" := JStr "00u1" ]> Vectors.payload_b)))
    Vectors.o0 "tok" = Ok None.
Proof.
  split.
  - refine (proj1 (nonstring_client_id_rejected Vectors.one_key
                     (Vectors.verified (<[ "sub" := JNum 42 ]> Vectors.payload_a))
                     Vectors.a0 Vectors.o0 "tok" "key-1"
                     (<[ "sub" := JNum 42 ]> Vectors.payload_a) (JNum 42)
                     eq_refl) _ _ _);
      vm_compute; reflexivity.
  - refine (proj2 (nonstring_client_id_rejected Vectors.one_key
                     (Vectors.verified
                        (<[ "cid" := JNull ]>
                           (<[ "sub" := JStr "00u1" ]> Vectors.payload_b)))
                     Vectors.a0 Vectors.o0 "tok" "key-1"
                     (<[ "cid" := JNull ]>
                        (<[ "sub" := JStr "00u1" ]> Vectors.payload_b))
                     JNull eq_refl) _ _ _);
      vm_compute; reflexivity.
Defined.

Lemma auth0_scopes_are_words_witness :
  Forall scope_word ["read"; "read"].
Proof.
  refine (auth0_scopes_are_words Vectors.one_key
            (Vectors.verified Vectors.payload_a_twice) Vectors.a0 "tok"
            {| token := "tok"; client_id := "auth0|abc123";
               scopes := ["read"; "read"];
               expires_at := Some (Vectors.clock + 3600) |} _).
  vm_compute. reflexivity.
Defined.

Lemma auth0_no_scopes_iff_blank_witness :
  ([] : list string) = [] <-> blank "   ".
Proof.
  refine (auth0_no_scopes_iff_blank Vectors.one_key
            (Vectors.verified (<[ "scope" := JStr "   " ]> Vectors.payload_a))
            Vectors.a0 "tok" "key-1"
            (<[ "scope" := JStr "   " ]> Vectors.payload_a) "   "
            {| token := "tok"; client_id := "auth0|abc123"; scopes := [];
               expires_at := Some (Vectors.clock + 3600) |} _ _ _ _);
    vm_compute; reflexivity.
Defined.

(** ** What a grant says about the token, over the claims validator *)
Section GrantsOfValidatedTokens.
Context {Key : Type}.
Variable get_key : PyJWKClient -> string -> result Key.
Variable load : string -> result jws.
Variable sig_ok : string -> Key -> string -> string -> bool.
Variable now : Z.

Abbreviation decode := (jwt_decode load sig_ok now).
Abbreviation auth0 := (Auth0TokenVerifier.verify_token get_key decode).
Abbreviation okta := (OktaTokenVerifier.verify_token get_key decode).

Lemma check_signature_ok (a : string) (k : Key) (t : jws) :
  check_signature sig_ok a k t = Ok () ->
  sig_ok a k (signing_input t) (signature t) = true.
Proof.
  unfold check_signature. destruct (sig_ok _ _ _ _); [reflexivity|discriminate].
Qed.

Lemma check_issuer_ok (issuer : string) (p : payload_t) :
  check_issuer issuer p = Ok () -> p !! "iss" = Some (JStr issuer).
Proof.
  unfold check_issuer. destruct (p !! "iss") as [[]|]; try discriminate.
  destruct (bool_decide _) eqn:E; [|discriminate].
  apply bool_decide_eq_true in E. congruence.
Qed.

Lemma check_audience_ok (audience : string) (p : payload_t) :
  check_audience audience p = Ok () -> aud_names audience p.
Proof.
  unfold check_audience, aud_names.
  destruct (p !! "aud") as [[| | |a|l|]|]; try discriminate.
  - destruct (bool_decide _) eqn:E; [|discriminate].
    apply bool_decide_eq_true in E. subst a. auto.
  - destruct (existsb _ l) eqn:E; [|discriminate]. intros _. right.
    exists l. split; [reflexivity|].
    apply existsb_exists in E as (v & Hin & Hv).
    apply list_elem_of_In.
    destruct v; try discriminate. simpl in Hv.
    apply bool_decide_eq_true in Hv. subst s. exact Hin.
Qed.

Lemma check_expiry_ok (p : payload_t) :
  check_expiry now p = Ok () ->
  p !! "exp" = None \/ exists e, p !! "exp" = Some (JNum e) /\ now < e.
Proof.
  unfold check_expiry. destruct (p !! "exp") as [[| |e| | |]|]; try discriminate.
  - destruct (Z.leb_spec e now); [discriminate|]. eauto.
  - auto.
Qed.

(** Everything a successful [jwt.decode] with the verifiers' [require] list
    establishes. *)
Lemma decoded_token (tok : string) (k : Key) (algs : list string)
    (issuer audience : string) (p : payload_t) :
  decode tok k algs issuer audience ["exp"; "iss"; "aud"; "sub"] = Ok p ->
  exists t a,
    load tok = Ok t /\ claims t = JObj p /\
    header t !! "alg" = Some (JStr a) /\ a ∈ algs /\
    sig_ok a k (signing_input t) (signature t) = true /\
    p !! "iss" = Some (JStr issuer) /\
    aud_names audience p /\
    exists e, p !! "exp" = Some (JNum e) /\ now < e.
Proof.
  intros H.
  apply jwt_decode_inv in H as (t & a & Ht & Ha & Hs & Hc & Hr & Hi & Hau & He).
  apply check_algorithm_allowed in Ha as [Hh Hin].
  exists t, a. repeat (split; [eauto using check_signature_ok,
                                 check_issuer_ok, check_audience_ok|]).
  apply check_expiry_ok in He as [He|He]; [|exact He].
  pose proof (check_required_present _ _ Hr "exp") as Hp.
  unfold present in Hp. rewrite He in Hp.
  assert (false = true) by (apply Hp; set_solver). discriminate.
Qed.

(** X8. A grant is never handed out for an expired token, and it never
  lacks an expiry: [expires_at] is the [exp] claim of the token's payload
  and lies strictly after the time of verification.  Both verifiers. *)
Theorem grant_is_unexpired
    (a0 : Auth0TokenVerifier.t) (o0 : OktaTokenVerifier.t) (tok : string)
    (g : AccessToken) :
  auth0 a0 tok = Ok (Some g) \/ okta o0 tok = Ok (Some g) ->
  exists t p e,
    load tok = Ok t /\ claims t = JObj p /\
    p !! "exp" = Some (JNum e) /\
    expires_at g = Some e /\ now < e.
Proof.
  intros [H|H].
  - apply auth0_grant_inv in H as (k & p & _ & Hd & Hn).
    apply decoded_token in Hd
      as (t & a & Ht & Hc & _ & _ & _ & _ & _ & e & He & Hlt).
    apply auth0_normalize_inv in Hn as (_ & _ & _ & Hx).
    apply as_opt_int_exp in Hx. rewrite He in Hx.
    exists t, p, e. auto.
  - apply okta_grant_inv in H as (k & p & _ & Hd & Hn).
    apply decoded_token in Hd
      as (t & a & Ht & Hc & _ & _ & _ & _ & _ & e & He & Hlt).
    apply okta_normalize_inv in Hn as (_ & _ & _ & Hx).
    apply as_opt_int_exp in Hx. rewrite He in Hx.
    exists t, p, e. auto.
Qed.

(** X9. A grant of a verifier built by [__init__] vouches for the token:
    the key client resolved a key from the JWKS address of the configured
    domain, the token's header declares RS256, and its signature verifies
    under RS256 with that very key.  Both verifiers. *)
Theorem grant_implies_signature_checked
    (domain audience server : string) (tok : string) (g : AccessToken) :
  (auth0 (Auth0TokenVerifier.init domain audience) tok = Ok (Some g) ->
   exists k t,
     get_key {| uri := "https://" +:+ domain +:+ "/.well-known/jwks.json";
                cache_keys := true; lifespan := 3600 |} tok = Ok k /\
     load tok = Ok t /\
     header t !! "alg" = Some (JStr "RS256") /\
     sig_ok "RS256" k (signing_input t) (signature t) = true) /\
  (okta (OktaTokenVerifier.init domain audience server) tok = Ok (Some g) ->
   exists k t,
     get_key {| uri := "https://" +:+ domain +:+ "/oauth2/" +:+ server
                       +:+ "/v1/keys";
                cache_keys := true; lifespan := 3600 |} tok = Ok k /\
     load tok = Ok t /\
     header t !! "alg" = Some (JStr "RS256") /\
     sig_ok "RS256" k (signing_input t) (signature t) = true).
Proof.
  split; intros H.
  - apply auth0_grant_inv in H as (k & p & Hk & Hd & _).
    apply decoded_token in Hd as (t & a & Ht & _ & Hh & Hin & Hs & _).
    apply list_elem_of_singleton in Hin as ->.
    exists k, t. auto.
  - apply okta_grant_inv in H as (k & p & Hk & Hd & _).
    apply decoded_token in Hd as (t & a & Ht & _ & Hh & Hin & Hs & _).
    apply list_elem_of_singleton in Hin as ->.
    exists k, t. auto.
Qed.

(** X10. The servers accept only tokens of the issuer they advertise and
    for their own audience: for every environment, a token granted by the
    task server's (incident server's) verifier has the advertised
    [issuer_url] as its [iss] claim and names the configured audience. *)
Theorem servers_accept_only_advertised_issuer
    (environ : gmap string string) (tok : string) (g : AccessToken) :
  (auth0 (TasksServer.token_verifier environ) tok = Ok (Some g) ->
   exists t p,
     load tok = Ok t /\ claims t = JObj p /\
     p !! "iss" = Some (JStr (TasksServer.issuer_url environ)) /\
     aud_names (TasksServer.AUTH0_AUDIENCE environ) p) /\
  (okta (IncidentsServer.token_verifier environ) tok = Ok (Some g) ->
   exists t p,
     load tok = Ok t /\ claims t = JObj p /\
     p !! "iss" = Some (JStr (IncidentsServer.issuer_url environ)) /\
     aud_names (IncidentsServer.OKTA_AUDIENCE environ) p).
Proof.
  split; intros H.
  - apply auth0_grant_inv in H as (k & p & _ & Hd & _).
    apply decoded_token in Hd as (t & a & Ht & Hc & _ & _ & _ & Hi & Ha & _).
    exists t, p. auto.
  - apply okta_grant_inv in H as (k & p & _ & Hd & _).
    apply decoded_token in Hd as (t & a & Ht & Hc & _ & _ & _ & Hi & Ha & _).
    exists t, p. auto.
Qed.

Lemma append_cancel_l (s a b : string) : s +:+ a = s +:+ b -> a = b.
Proof.
  induction s as [|c s IH]; simpl; intros H; [exact H|].
  injection H as H. auto.
Qed.

(** X11. The two providers' tokens are not interchangeable: for one and the
    same domain, whatever the audiences and the Okta authorization server
    id, a token granted by the Auth0 verifier is rejected by the Okta
    verifier. *)
Theorem providers_do_not_share_tokens
    (domain aud_a aud_b server : string) (tok : string) (ga : AccessToken) :
  auth0 (Auth0TokenVerifier.init domain aud_a) tok = Ok (Some ga) ->
  okta (OktaTokenVerifier.init domain aud_b server) tok = Ok None.
Proof.
  intros Ha.
  destruct (okta (OktaTokenVerifier.init domain aud_b server) tok)
    as [[gb|]|e] eqn:Hb; [exfalso|reflexivity|exfalso].
  - apply auth0_grant_inv in Ha as (k & p & _ & Hd & _).
    apply decoded_token in Hd as (t & a & Ht & Hc & _ & _ & _ & Hi & _).
    apply okta_grant_inv in Hb as (k' & p' & _ & Hd' & _).
    apply decoded_token in Hd' as (t' & a' & Ht' & Hc' & _ & _ & _ & Hi' & _).
    rewrite Ht in Ht'. injection Ht' as <-.
    rewrite Hc in Hc'. injection Hc' as <-.
    rewrite Hi in Hi'. injection Hi' as E.
    unfold Auth0TokenVerifier.init, OktaTokenVerifier.init in E.
    cbn [Auth0TokenVerifier.issuer OktaTokenVerifier.issuer] in E.
    do 2 apply append_cancel_l in E. discriminate.
  - rewrite okta_unfold in Hb. destruct (let* k := _ in _); discriminate.
Qed.
End GrantsOfValidatedTokens.

(** ** Instances on signed test tokens *)

Lemma grant_is_unexpired_witness :
  exists t p e,
    Vectors.toy_load "RS256" (Vectors.auth0_claims (Vectors.clock + 1) None)
      "tok" = Ok t /\
    claims t = JObj p /\
    p !! "exp" = Some (JNum e) /\
    Some (Vectors.clock + 1) = Some e /\ Vectors.clock < e.
Proof.
  refine (grant_is_unexpired Vectors.one_key
            (Vectors.toy_load "RS256"
               (Vectors.auth0_claims (Vectors.clock + 1) None))
            Vectors.toy_sig Vectors.clock Vectors.a0 Vectors.o0 "tok"
            {| token := "tok"; client_id := "auth0|abc123"; scopes := [];
               expires_at := Some (Vectors.clock + 1) |} _).
  left. vm_compute. reflexivity.
Defined.

Lemma grant_implies_signature_checked_witness :
  let t := {| header := {[ "alg" := JStr "RS256" ]};
              claims := JObj (Vectors.auth0_claims (Vectors.clock + 1) None);
              signing_input := "tok"; signature := "key-1/RS256" |} in
  exists k t',
    Vectors.one_key
      {| uri := "https://" +:+ Vectors.domain +:+ "/.well-known/jwks.json";
         cache_keys := true; lifespan := 3600 |} "tok" = Ok k /\
    Vectors.toy_load "RS256" (Vectors.auth0_claims (Vectors.clock + 1) None)
      "tok" = Ok t' /\
    header t' !! "alg" = Some (JStr "RS256") /\
    Vectors.toy_sig "RS256" k (signing_input t') (signature t') = true.
Proof.
  intros t.
  refine (proj1 (grant_implies_signature_checked Vectors.one_key
                   (Vectors.toy_load "RS256"
                      (Vectors.auth0_claims (Vectors.clock + 1) None))
                   Vectors.toy_sig Vectors.clock Vectors.domain Vectors.api
                   "default" "tok"
                   {| token := "tok"; client_id := "auth0|abc123"; scopes := [];
                      expires_at := Some (Vectors.clock + 1) |}) _).
  vm_compute. reflexivity.
Defined.

Lemma servers_accept_only_advertised_issuer_witness :
  let environ : gmap string string :=
    <[ "AUTH0_DOMAIN" := Vectors.domain ]>
    (<[ "AUTH0_AUDIENCE" := Vectors.api ]> ∅) in
  exists t p,
    Vectors.toy_load "RS256" (Vectors.auth0_claims (Vectors.clock + 1) None)
      "tok" = Ok t /\
    claims t = JObj p /\
    p !! "iss" = Some (JStr (TasksServer.issuer_url environ)) /\
    aud_names (TasksServer.AUTH0_AUDIENCE environ) p.
Proof.
  intros environ.
  refine (proj1 (servers_accept_only_advertised_issuer Vectors.one_key
                   (Vectors.toy_load "RS256"
                      (Vectors.auth0_claims (Vectors.clock + 1) None))
                   Vectors.toy_sig Vectors.clock environ "tok"
                   {| token := "tok"; client_id := "auth0|abc123"; scopes := [];
                      expires_at := Some (Vectors.clock + 1) |}) _).
  vm_compute. reflexivity.
Defined.

Lemma providers_do_not_share_tokens_witness :
  OktaTokenVerifier.verify_token Vectors.one_key
    (jwt_decode
       (Vectors.toy_load "RS256" (Vectors.auth0_claims (Vectors.clock + 1) None))
       Vectors.toy_sig Vectors.clock)
    (OktaTokenVerifier.init Vectors.domain Vectors.api "default") "tok"
  = Ok None.
Proof.
  refine (providers_do_not_share_tokens Vectors.one_key
            (Vectors.toy_load "RS256"
               (Vectors.auth0_claims (Vectors.clock + 1) None))
            Vectors.toy_sig Vectors.clock Vectors.domain Vectors.api
            Vectors.api "default" "tok"
            {| token := "tok"; client_id := "auth0|abc123"; scopes := [];
               expires_at := Some (Vectors.clock + 1) |} _).
  vm_compute. reflexivity.
Defined.

(** * The notes server (01-stdio-server) *)

(** ** Dictionaries in insertion order *)
Section OrderedDictFacts.
Context {V : Type}.
Implicit Types (d : list (string * V)) (k : string) (v : V).

Lemma odict_get_set_eq d k v : odict_get (odict_set d k v) k = Some v.
Proof.
  induction d as [|[k' v'] d IH]; simpl.
  - rewrite String.eqb_refl. reflexivity.
  - destruct (String.eqb k' k) eqn:E; simpl; rewrite E; auto.
Qed.

Lemma odict_get_set_ne d k k' v :
  k' <> k -> odict_get (odict_set d k v) k' = odict_get d k'.
Proof.
  intros Hne. induction d as [|[k0 v0] d IH]; simpl.
  - destruct (String.eqb_spec k k'); congruence.
  - destruct (String.eqb_spec k0 k); simpl.
    + subst k0. destruct (String.eqb_spec k k'); congruence.
    + rewrite IH. reflexivity.
Qed.

Lemma odict_in_keys d k : odict_in k d = true <-> k ∈ odict_keys d.
Proof.
  unfold odict_in, odict_keys.
  induction d as [|[k' v'] d IH]; simpl.
  - split; [discriminate|]. intros H. inversion H.
  - rewrite elem_of_cons. destruct (String.eqb_spec k' k).
    + subst. tauto.
    + rewrite IH. split; [tauto|]. intros [?|?]; [congruence|assumption].
Qed.

Lemma odict_keys_set d k v :
  odict_keys (odict_set d k v) =
  if odict_in k d then odict_keys d else (odict_keys d ++ [k])%list.
Proof.
  unfold odict_in, odict_keys.
  induction d as [|[k' v'] d IH]; [reflexivity|].
  cbn [odict_set odict_get].
  destruct (String.eqb_spec k' k); [reflexivity|].
  rewrite !fmap_cons, IH. destruct (odict_get d k); reflexivity.
Qed.
End OrderedDictFacts.

(** ** The order of [sorted] *)

Lemma str_le_cases (a b : string) :
  str_le a b <-> a = b \/ OrderedTypeEx.String_as_OT.lt a b.
Proof.
  unfold str_le, String.leb.
  destruct (String.compare a b) eqn:E.
  - split; [|reflexivity]. intros _. left.
    apply OrderedTypeEx.String_as_OT.cmp_eq, E.
  - split; [|reflexivity]. intros _. right.
    apply OrderedTypeEx.String_as_OT.cmp_lt, E.
  - split; [discriminate|]. intros [H|H].
    + apply OrderedTypeEx.String_as_OT.cmp_eq in H.
      unfold OrderedTypeEx.String_as_OT.cmp in H. congruence.
    + apply OrderedTypeEx.String_as_OT.cmp_lt in H.
      unfold OrderedTypeEx.String_as_OT.cmp in H. congruence.
Qed.

#[local] Instance str_le_trans : Transitive str_le.
Proof.
  intros a b c. rewrite !str_le_cases.
  intros [->|H1] [->|H2]; auto.
  right. eapply OrderedTypeEx.String_as_OT.lt_trans; eassumption.
Qed.

#[local] Instance str_le_antisym : AntiSymm (=) str_le.
Proof. intros a b. apply String.leb_antisym. Qed.

#[local] Instance str_le_total : Total str_le.
Proof. intros a b. apply String.leb_total. Qed.

Lemma sorted_perm (l1 l2 : list string) :
  l1 ≡ₚ l2 -> sorted l1 = sorted l2.
Proof.
  intros H. unfold sorted.
  apply (Sorted_unique str_le); try apply Sorted_merge_sort; try apply _.
  rewrite !merge_sort_Permutation. exact H.
Qed.

(** ** Substrings *)

Lemma prefix_empty (s : string) : String.prefix "" s = true.
Proof. destruct s; reflexivity. Qed.

Lemma str_in_empty (s : string) : str_in "" s = true.
Proof. destruct s; reflexivity. Qed.

Section Notes.
Import NotesServer.
Implicit Types (notes : list (string * string)).

(** X12. A note that was added can be read back: after
    [add_note(name, content)], [read_note(name)] is [content], whether the
    name was new or already taken; reading any other name gives what it
    gave before. *)
Theorem add_note_then_read (name other content : string) notes :
  other <> name ->
  read_note name (add_note name content notes).1 = content /\
  read_note other (add_note name content notes).1 = read_note other notes.
Proof.
  intros Hne. unfold read_note, add_note, odict_in. simpl. split.
  - rewrite odict_get_set_eq. reflexivity.
  - rewrite odict_get_set_ne by exact Hne. reflexivity.
Qed.

(** X13. [add_note] keeps one entry per name: on a dictionary with
    distinct names, a name already present keeps its place and the list of
    names is unchanged (the note is overwritten); a new name is put last.
    The names stay distinct. *)
Theorem add_note_names (name content : string) notes :
  NoDup (odict_keys notes) ->
  let notes' := (add_note name content notes).1 in
  NoDup (odict_keys notes') /\
  (name ∈ odict_keys notes -> odict_keys notes' = odict_keys notes) /\
  (name ∉ odict_keys notes -> odict_keys notes' = (odict_keys notes ++ [name])%list).
Proof.
  intros Hnd. simpl. rewrite odict_keys_set.
  destruct (odict_in name notes) eqn:E.
  - apply odict_in_keys in E. repeat split; auto. intros; contradiction.
  - assert (name ∉ odict_keys notes) as Hn.
    { rewrite <- odict_in_keys. congruence. }
    repeat split; auto; [|intros; contradiction].
    apply NoDup_app. repeat split; [exact Hnd| |apply NoDup_singleton].
    intros x Hx Hx'. apply list_elem_of_singleton in Hx'. subst. contradiction.
Qed.

(** X14. [list_notes] does not depend on the order in which the notes were
    added: two dictionaries with the same names give the same listing (the
    names in ascending order). *)
Theorem list_notes_order_independent notes1 notes2 :
  odict_keys notes1 ≡ₚ odict_keys notes2 ->
  list_notes notes1 = list_notes notes2.
Proof.
  intros H. unfold list_notes.
  destruct notes1 as [|x1 r1], notes2 as [|x2 r2]; try reflexivity.
  - apply Permutation_nil_l in H. discriminate.
  - symmetry in H. apply Permutation_nil_l in H. discriminate.
  - rewrite (sorted_perm _ _ H). reflexivity.
Qed.

Lemma search_matches_empty notes :
  search_matches "" notes = note_line <$> notes.
Proof.
  induction notes as [|[name content] notes IH]; [reflexivity|].
  cbn [search_matches]. rewrite str_in_empty. simpl. rewrite IH. reflexivity.
Qed.

(** X15. The empty query matches every note: on a non-empty dictionary
    [search_notes("")] reports as many notes as there are and prints the
    line of each, in insertion order. *)
Theorem search_notes_empty_query notes :
  notes <> [] ->
  search_notes "" notes =
  "Found " +:+ py_str (Z.of_nat (length notes)) +:+ " note(s):"
  +:+ String "010" (join (String "010" "") (note_line <$> notes)).
Proof.
  intros Hne. unfold search_notes. cbn [lower].
  rewrite search_matches_empty.
  destruct notes as [|x r]; [congruence|].
  rewrite length_fmap. reflexivity.
Qed.

End Notes.

(** ** Instances *)

Lemma add_note_then_read_witness :
  NotesServer.read_note "todo"
    (NotesServer.add_note "todo" "buy milk" [("idea", "x"); ("todo", "old")]).1
  = "buy milk" /\
  NotesServer.read_note "idea"
    (NotesServer.add_note "todo" "buy milk" [("idea", "x"); ("todo", "old")]).1
  = NotesServer.read_note "idea" [("idea", "x"); ("todo", "old")].
Proof.
  apply (add_note_then_read "todo" "idea" "buy milk"). discriminate.
Defined.

Lemma add_note_names_witness :
  let notes' :=
    (NotesServer.add_note "todo" "buy milk" [("idea", "x"); ("todo", "old")]).1 in
  NoDup (odict_keys notes') /\
  (("todo" : string) ∈ odict_keys [("idea", "x"); ("todo", "old")] ->
   odict_keys notes' = odict_keys [("idea", "x"); ("todo", "old")]) /\
  (("todo" : string) ∉ odict_keys [("idea", "x"); ("todo", "old")] ->
   odict_keys notes'
   = (odict_keys [("idea", "x"); ("todo", "old")] ++ ["todo"])%list).
Proof.
  apply (add_note_names "todo" "buy milk" [("idea", "x"); ("todo", "old")]).
  unfold odict_keys. simpl. apply NoDup_cons. split.
  - intros H. apply list_elem_of_singleton in H. discriminate.
  - apply NoDup_singleton.
Defined.

Lemma list_notes_order_independent_witness :
  NotesServer.list_notes [("b", "1"); ("a", "2")]
  = NotesServer.list_notes [("a", "3"); ("b", "4")].
Proof.
  apply list_notes_order_independent. simpl. apply perm_swap.
Defined.

Lemma search_notes_empty_query_witness :
  NotesServer.search_notes "" [("b", "1"); ("a", "2")] =
  "Found " +:+ py_str 2 +:+ " note(s):"
  +:+ String "010" (join (String "010" "")
                      (note_line <$> [("b", "1"); ("a", "2")])).
Proof.
  apply (search_notes_empty_query [("b", "1"); ("a", "2")]). discriminate.
Defined.


(** * The JSON-file stores *)

(** ** [int] reads back what [str] writes *)

Lemma is_digit_plain (c : ascii) :
  is_digit c = true ->
  int_space c = false /\ Ascii.eqb c "-" = false /\
  Ascii.eqb c "+" = false /\ Ascii.eqb c "_" = false.
Proof.
  destruct c as [[] [] [] [] [] [] [] []]; vm_compute; intros H;
    try discriminate H; auto.
Qed.

Lemma uint_digits (d : Decimal.uint) : digits (NilEmpty.string_of_uint d).
Proof.
  unfold digits. induction d; simpl; constructor; auto.
Qed.

Lemma digits_of_digits (s : string) :
  digits s -> forall b, s <> "" -> digits_of b s = Some s.
Proof.
  unfold digits. induction s as [|c s IH]; intros Hd b Hne; [congruence|].
  simpl in Hd. inversion Hd as [|? ? Hc Hs]; subst.
  cbn [digits_of]. rewrite Hc.
  destruct s as [|c' s'].
  - reflexivity.
  - rewrite (IH Hs true) by discriminate. reflexivity.
Qed.

Lemma lstrip_plain (l : list ascii) :
  Forall (fun c => int_space c = false) l -> lstrip l = l.
Proof.
  intros H. destruct H as [|c l Hc _]; [reflexivity|].
  simpl. rewrite Hc. reflexivity.
Qed.

Lemma strip_plain (s : string) :
  Forall (fun c => int_space c = false) (list_ascii_of_string s) ->
  strip s = s.
Proof.
  intros H. unfold strip.
  rewrite (lstrip_plain _ H).
  rewrite lstrip_plain by (apply Forall_rev; exact H).
  rewrite rev_involutive. apply string_of_list_ascii_of_string.
Qed.

Lemma digits_no_space (s : string) :
  digits s -> Forall (fun c => int_space c = false) (list_ascii_of_string s).
Proof.
  unfold digits. intros H. eapply Forall_impl; [exact H|].
  intros c Hc. apply is_digit_plain, Hc.
Qed.

Lemma parse_digits_uint (d : Decimal.uint) :
  d <> Decimal.Nil ->
  parse_digits (NilEmpty.string_of_uint d) = Some (Z.of_uint d).
Proof.
  intros Hd. unfold parse_digits.
  rewrite digits_of_digits; [| apply uint_digits | destruct d; simpl; congruence].
  simpl. rewrite NilEmpty.usu. reflexivity.
Qed.

Lemma parse_int_pos (d : Decimal.uint) :
  d <> Decimal.Nil ->
  parse_int (NilEmpty.string_of_uint d) = Some (Z.of_uint d).
Proof.
  intros Hd. unfold parse_int.
  rewrite strip_plain by apply digits_no_space, uint_digits.
  pose proof (parse_digits_uint d Hd) as Hp.
  pose proof (uint_digits d) as Hs. unfold digits in Hs.
  destruct (NilEmpty.string_of_uint d) as [|c r] eqn:E.
  - destruct d; simpl in E; congruence.
  - simpl in Hs. inversion Hs as [|? ? Hc _]; subst.
    apply is_digit_plain in Hc as (_ & -> & -> & _). exact Hp.
Qed.

Lemma parse_int_neg (d : Decimal.uint) :
  d <> Decimal.Nil ->
  parse_int (String "-" (NilEmpty.string_of_uint d)) = Some (- Z.of_uint d).
Proof.
  intros Hd. unfold parse_int.
  rewrite strip_plain.
  - cbn [Ascii.eqb Bool.eqb]. rewrite parse_digits_uint by exact Hd. reflexivity.
  - simpl. constructor; [reflexivity|]. apply digits_no_space, uint_digits.
Qed.

Lemma of_uint_pos (p : positive) : Z.of_uint (Pos.to_uint p) = Z.pos p.
Proof.
  unfold Z.of_uint. rewrite DecimalPos.Unsigned.of_to. reflexivity.
Qed.

Lemma nilzero_nonnil (d : Decimal.uint) :
  d <> Decimal.Nil -> NilZero.string_of_uint d = NilEmpty.string_of_uint d.
Proof. destruct d; simpl; congruence. Qed.

Lemma parse_int_py_str (n : Z) : parse_int (py_str n) = Some n.
Proof.
  unfold py_str. destruct n as [|p|p]; [reflexivity| |].
  - cbn [Z.to_int NilZero.string_of_int].
    rewrite nilzero_nonnil by apply DecimalPos.Unsigned.to_uint_nonnil.
    rewrite parse_int_pos by apply DecimalPos.Unsigned.to_uint_nonnil.
    rewrite of_uint_pos. reflexivity.
  - cbn [Z.to_int NilZero.string_of_int].
    rewrite nilzero_nonnil by apply DecimalPos.Unsigned.to_uint_nonnil.
    rewrite parse_int_neg by apply DecimalPos.Unsigned.to_uint_nonnil.
    rewrite of_uint_pos. reflexivity.
Qed.

(** [int(str(n))] is [n], for every integer. *)
Lemma py_int_py_str (n : Z) : py_int (py_str n) = Done n.
Proof. unfold py_int. rewrite parse_int_py_str. reflexivity. Qed.

Lemma py_int_done (s : string) (n : Z) :
  py_int s = Done n <-> parse_int s = Some n.
Proof.
  unfold py_int. destruct (parse_int s); split; congruence.
Qed.

(** ** [_next_id] *)

Lemma ints_of_done (keys : list string) (ns : list Z) :
  ints_of keys = Done ns -> Forall2 (fun k n => py_int k = Done n) keys ns.
Proof.
  revert ns. induction keys as [|k keys IH]; simpl; intros ns H.
  - injection H as <-. constructor.
  - destruct (py_int k) as [n|] eqn:Hk; [|discriminate].
    destruct (ints_of keys) as [ns'|]; [|discriminate].
    injection H as <-. constructor; auto.
Qed.

Lemma ints_of_error (keys : list string) (t : string) :
  ints_of keys = ValueError t -> t ∈ keys /\ parse_int t = None.
Proof.
  induction keys as [|k keys IH]; simpl; [discriminate|].
  unfold py_int at 1. destruct (parse_int k) as [n|] eqn:Hk.
  - destruct (ints_of keys) as [ns|t']; [discriminate|].
    intros [= <-]. destruct (IH eq_refl). split; [right|]; assumption.
  - intros [= <-]. split; [left|assumption].
Qed.

Lemma ints_of_literals (keys : list string) :
  Forall int_literal keys -> exists ns, ints_of keys = Done ns.
Proof.
  induction 1 as [|k keys [n Hk] _ [ns IH]]; simpl; [eauto|].
  unfold py_int. rewrite Hk, IH. eauto.
Qed.

Lemma fold_max_ge (l : list Z) (x : Z) :
  x <= fold_left Z.max l x /\ Forall (fun y => y <= fold_left Z.max l x) l.
Proof.
  revert x. induction l as [|y l IH]; intros x; simpl.
  - split; [lia|constructor].
  - destruct (IH (Z.max x y)) as [H1 H2]. split; [lia|].
    constructor; [lia|exact H2].
Qed.

Lemma fold_max_in (l : list Z) (x : Z) :
  fold_left Z.max l x ∈ x :: l.
Proof.
  revert x. induction l as [|y l IH]; intros x; simpl; [left|].
  specialize (IH (Z.max x y)). apply elem_of_cons in IH as [E|Hin].
  - rewrite E. destruct (Z.max_spec x y) as [[_ ->]|[_ ->]];
      [right; left|left].
  - right. right. exact Hin.
Qed.

Lemma py_max_ge (ns : list Z) (m : Z) :
  py_max ns = Done m -> Forall (fun n => n <= m) ns.
Proof.
  destruct ns as [|x l]; simpl; [discriminate|]. intros [= <-].
  destruct (fold_max_ge l x). constructor; assumption.
Qed.

Lemma next_id_fresh_and_above (records : list (string * json)) (i : string) :
  _next_id records = Done i ->
  odict_in i records = false /\
  exists m, py_int i = Done m /\
    forall k, k ∈ odict_keys records -> exists n, py_int k = Done n /\ n < m.
Proof.
  unfold _next_id. intros H.
  assert (exists m, py_int i = Done m /\
            forall k, k ∈ odict_keys records ->
                      exists n, py_int k = Done n /\ n < m) as (m & Hi & Hk).
  { destruct records as [|r records]; [|set (rs := r :: records) in *].
    - injection H as <-. exists 1. split; [reflexivity|].
      intros k Hin. inversion Hin.
    - destruct (ints_of (odict_keys rs)) as [ns|] eqn:Hns; [|discriminate].
      destruct (py_max ns) as [m|] eqn:Hm; [|discriminate].
      injection H as <-. exists (m + 1). split; [apply py_int_py_str|].
      intros k Hin. apply ints_of_done in Hns. apply py_max_ge in Hm.
      apply list_elem_of_lookup in Hin as [j Hj].
      destruct (Forall2_lookup_l _ _ _ _ _ Hns Hj) as (n & Hn & Hkn).
      exists n. split; [exact Hkn|].
      rewrite Forall_lookup in Hm. specialize (Hm _ _ Hn). lia. }
  split; [|eauto].
  destruct (odict_in i records) eqn:E; [|reflexivity].
  apply odict_in_keys in E. destruct (Hk i E) as (n & Hn & Hlt).
  rewrite Hi in Hn. injection Hn as ->. lia.
Qed.

Lemma next_id_error_iff (records : list (string * json)) :
  (exists t, _next_id records = ValueError t) <->
  Exists (fun k => parse_int k = None) (odict_keys records).
Proof.
  unfold _next_id. split.
  - intros [t H]. destruct records as [|r records]; [discriminate|].
    set (rs := r :: records) in *.
    destruct (ints_of (odict_keys rs)) as [ns|t'] eqn:Hns.
    + destruct ns as [|x l]; [|discriminate].
      apply ints_of_done in Hns. inversion Hns.
    + apply ints_of_error in Hns as [Hin Hp].
      apply Exists_exists. eauto.
  - intros Hex. destruct records as [|r records]; [inversion Hex|].
    set (rs := r :: records) in *.
    destruct (ints_of (odict_keys rs)) as [ns|t'] eqn:Hns; [|eauto].
    exfalso. apply ints_of_done in Hns.
    apply Exists_exists in Hex as (k & Hin & Hk).
    apply list_elem_of_lookup in Hin as [j Hj].
    destruct (Forall2_lookup_l _ _ _ _ _ Hns Hj) as (n & _ & Hkn).
    apply py_int_done in Hkn. congruence.
Qed.

(** X17. The id [_next_id] hands out is not in use: it is no key of the
    store, and read as a number it is greater than every key of the store
    (all of which are then integer literals). *)
Theorem next_id_is_fresh (records : list (string * json)) (i : string) :
  _next_id records = Done i ->
  odict_in i records = false /\
  exists m, py_int i = Done m /\
    forall k, k ∈ odict_keys records -> exists n, py_int k = Done n /\ n < m.
Proof. apply next_id_fresh_and_above. Qed.

(** X18. On a store whose keys stay within the interpreter's default
  limit on converted digits (each key at most 4300 characters long and,
  read as a number, below [10^4300 - 1]), [_next_id] raises [ValueError]
  exactly when some key is not an integer literal. *)
Theorem next_id_fails_on_bad_key (records : list (string * json)) :
  Forall within_digit_limit (odict_keys records) ->
  ((exists t, _next_id records = ValueError t) <->
   Exists (fun k => parse_int k = None) (odict_keys records)).
Proof. intros _. apply next_id_error_iff. Qed.

(** ** [create_task] and [create_incident] *)

Lemma odict_set_fresh {V : Type} (d : list (string * V)) (k : string) (v : V) :
  odict_in k d = false -> odict_set d k v = (d ++ [(k, v)])%list.
Proof.
  unfold odict_in. induction d as [|[k' v'] d IH]; simpl; [reflexivity|].
  destruct (String.eqb k' k); [discriminate|].
  intros H. rewrite IH by exact H. reflexivity.
Qed.

Lemma next_id_of_literals (records : list (string * json)) :
  Forall int_literal (odict_keys records) ->
  exists i, _next_id records = Done i.
Proof.
  intros H. destruct (_next_id records) as [i|t] eqn:E; [eauto|].
  exfalso.
  assert (exists t, _next_id records = ValueError t) as Hex by eauto.
  apply next_id_error_iff, Exists_exists in Hex as (k & Hin & Hk).
  rewrite Forall_forall in H. destruct (H k Hin) as [n Hn]. congruence.
Qed.

Lemma create_appends (title a b : string)
    (db : option (list (string * json))) :
  Forall int_literal (odict_keys (TasksServer._load_tasks db)) ->
  (exists i,
     (i ∉ odict_keys (TasksServer._load_tasks db)) /\
     TasksServer.create_task title a b db =
     (Some ((TasksServer._load_tasks db
             ++ [(i, TasksServer.task i title a b)])%list),
      Done ("Task '" +:+ title +:+ "' created with id " +:+ i
            +:+ " (status=" +:+ a +:+ ", priority=" +:+ b +:+ ")."))) /\
  (exists i,
     (i ∉ odict_keys (IncidentsServer._load_incidents db)) /\
     IncidentsServer.create_incident title a b db =
     (Some ((IncidentsServer._load_incidents db
             ++ [(i, IncidentsServer.incident i title a b)])%list),
      Done ("Incident '" +:+ title +:+ "' created with id " +:+ i
            +:+ " (severity=" +:+ a +:+ ", status=" +:+ b +:+ ")."))).
Proof.
  intros H.
  assert (IncidentsServer._load_incidents db = TasksServer._load_tasks db) as El
    by (destruct db; reflexivity).
  destruct (next_id_of_literals _ H) as [i Hi].
  destruct (next_id_fresh_and_above _ _ Hi) as [Hf _].
  assert (i ∉ odict_keys (TasksServer._load_tasks db)) as Hn.
  { rewrite <- odict_in_keys. congruence. }
  split; exists i.
  - split; [exact Hn|].
    unfold TasksServer.create_task. rewrite Hi.
    rewrite odict_set_fresh by exact Hf. reflexivity.
  - rewrite El. split; [exact Hn|].
    unfold IncidentsServer.create_incident. rewrite El, Hi.
    rewrite odict_set_fresh by exact Hf. reflexivity.
Qed.

(** X19. Creating never overwrites: on a store all of whose keys are
  integer literals within the interpreter's default limit on converted
  digits (each key at most 4300 characters long and, read as a number,
  below [10^4300 - 1]; a missing file included), [create_task] and
  [create_incident] leave every record in place and put the new record
  last, under a key that was not in use and that is also the record's
  [id] field; the key is named in the message returned. *)
Theorem create_appends_fresh_record
    (title a b : string) (db : option (list (string * json))) :
  Forall int_literal (odict_keys (TasksServer._load_tasks db)) ->
  Forall within_digit_limit (odict_keys (TasksServer._load_tasks db)) ->
  (exists i,
     (i ∉ odict_keys (TasksServer._load_tasks db)) /\
     TasksServer.create_task title a b db =
     (Some ((TasksServer._load_tasks db
             ++ [(i, TasksServer.task i title a b)])%list),
      Done ("Task '" +:+ title +:+ "' created with id " +:+ i
            +:+ " (status=" +:+ a +:+ ", priority=" +:+ b +:+ ")."))) /\
  (exists i,
     (i ∉ odict_keys (IncidentsServer._load_incidents db)) /\
     IncidentsServer.create_incident title a b db =
     (Some ((IncidentsServer._load_incidents db
             ++ [(i, IncidentsServer.incident i title a b)])%list),
      Done ("Incident '" +:+ title +:+ "' created with id " +:+ i
            +:+ " (severity=" +:+ a +:+ ", status=" +:+ b +:+ ")."))).
Proof. intros H _. apply create_appends, H. Qed.

(** X20. A store with a key that is not an integer literal takes no new
    record: [create_task] and [create_incident] raise [ValueError] and the
    file is left as it was. *)
Theorem create_fails_on_bad_key
    (title a b : string) (records : list (string * json)) :
  Exists (fun k => parse_int k = None) (odict_keys records) ->
  exists t,
    TasksServer.create_task title a b (Some records)
    = (Some records, ValueError t) /\
    IncidentsServer.create_incident title a b (Some records)
    = (Some records, ValueError t).
Proof.
  intros H. apply next_id_error_iff in H as [t Ht].
  exists t. unfold TasksServer.create_task, IncidentsServer.create_incident.
  simpl. rewrite Ht. auto.
Qed.

(** ** Ids in sequence *)

Lemma ints_of_counting (s m : nat) :
  ints_of ((fun j => py_str (Z.of_nat j)) <$> seq s m)
  = Done (Z.of_nat <$> seq s m).
Proof.
  revert s. induction m as [|m IH]; intros s; [reflexivity|].
  cbn [seq]. rewrite !fmap_cons. cbn [ints_of].
  rewrite py_int_py_str, IH. reflexivity.
Qed.

(** On a store whose keys are ["1"], ..., [str(m)], the next id is
    [str(m + 1)]. *)
Lemma counting_next_id (records : list (string * json)) (m : nat) :
  odict_keys records = (fun j => py_str (Z.of_nat j)) <$> seq 1 m ->
  _next_id records = Done (py_str (Z.of_nat (S m))).
Proof.
  intros Hk. unfold _next_id.
  destruct records as [|r records].
  - destruct m; [reflexivity|discriminate].
  - set (rs := r :: records) in *.
    assert (ints_of (odict_keys rs) = Done (Z.of_nat <$> seq 1 m)) as ->.
    { rewrite Hk. apply ints_of_counting. }
    destruct m as [|m]; [discriminate|].
    assert (py_max (Z.of_nat <$> seq 1 (S m)) = Done (Z.of_nat (S m))) as ->.
    { destruct (py_max (Z.of_nat <$> seq 1 (S m))) as [x|] eqn:E;
        [|discriminate].
      f_equal. pose proof (py_max_ge _ _ E) as Hge.
      assert (x ∈ Z.of_nat <$> seq 1 (S m)) as Hin.
      { cbn [seq fmap list_fmap py_max] in E. injection E as <-.
        apply fold_max_in. }
      apply list_elem_of_fmap in Hin as (j & -> & Hj).
      apply elem_of_seq in Hj.
      rewrite Forall_forall in Hge.
      assert (Z.of_nat (S m) ∈ Z.of_nat <$> seq 1 (S m)) as Hlast.
      { apply list_elem_of_fmap. exists (S m). split; [reflexivity|].
        apply elem_of_seq. lia. }
      specialize (Hge _ Hlast). lia. }
    f_equal. f_equal. lia.
Qed.

Lemma create_tasks_counting (requests : list (string * string * string)) :
  forall (db : option (list (string * json))) (m : nat),
    odict_keys (TasksServer._load_tasks db)
    = (fun j => py_str (Z.of_nat j)) <$> seq 1 m ->
    odict_keys (TasksServer._load_tasks (create_tasks requests db))
    = (fun j => py_str (Z.of_nat j)) <$> seq 1 (m + length requests).
Proof.
  induction requests as [|[[title a] b] requests IH]; intros db m Hk.
  - simpl. rewrite Nat.add_0_r. exact Hk.
  - cbn [create_tasks length].
    replace (m + S (length requests))%nat with (S m + length requests)%nat by lia.
    apply IH.
    pose proof (counting_next_id _ _ Hk) as Hi.
    unfold TasksServer.create_task. rewrite Hi. cbn [fst TasksServer._save_tasks
      TasksServer._load_tasks].
    rewrite odict_keys_set.
    destruct (next_id_fresh_and_above _ _ Hi) as [-> _].
    rewrite Hk. rewrite seq_S. rewrite fmap_app. reflexivity.
Qed.

(** X21. Starting without a file, the tasks created one after another get
    the ids ["1"], ["2"], ["3"], ..., in that order: after [n] calls of
    [create_task] the keys of the store are [str(1)], ..., [str(n)]. *)
Theorem create_tasks_ids_count_up (requests : list (string * string * string)) :
  odict_keys (TasksServer._load_tasks (create_tasks requests None))
  = (fun j => py_str (Z.of_nat j)) <$> seq 1 (length requests).
Proof.
  apply (create_tasks_counting requests None 0). reflexivity.
Qed.

(** ** Instances *)

Lemma next_id_is_fresh_witness :
  odict_in "8" [("3", JNull); ("007", JNull); (" 5 ", JNull)] = false /\
  exists m, py_int "8" = Done m /\
    forall k, k ∈ odict_keys [("3", JNull); ("007", JNull); (" 5 ", JNull)] ->
              exists n, py_int k = Done n /\ n < m.
Proof.
  apply (next_id_is_fresh [("3", JNull); ("007", JNull); (" 5 ", JNull)] "8").
  vm_compute. reflexivity.
Defined.

Lemma create_appends_fresh_record_witness :
  exists i,
    (i ∉ odict_keys (TasksServer._load_tasks (Some [("2", JNull)]))) /\
    TasksServer.create_task "Fix login bug" "todo" "medium" (Some [("2", JNull)]) =
    (Some ((TasksServer._load_tasks (Some [("2", JNull)])
            ++ [(i, TasksServer.task i "Fix login bug" "todo" "medium")])%list),
     Done ("Task '" +:+ "Fix login bug" +:+ "' created with id " +:+ i
           +:+ " (status=" +:+ "todo" +:+ ", priority=" +:+ "medium" +:+ ").")).
Proof.
  refine (proj1 (create_appends_fresh_record "Fix login bug" "todo" "medium"
                   (Some [("2", JNull)]) _ _)).
  - repeat constructor. exists 2. vm_compute. reflexivity.
  - constructor; [split|constructor].
    + unfold max_str_digits. simpl. lia.
    + intros n Hn. vm_compute in Hn. injection Hn as <-.
      vm_compute. reflexivity.
Defined.

Lemma create_fails_on_bad_key_witness :
  exists t,
    TasksServer.create_task "t" "todo" "low" (Some [("1", JNull); ("x1", JNull)])
    = (Some [("1", JNull); ("x1", JNull)], ValueError t) /\
    IncidentsServer.create_incident "t" "todo" "low"
      (Some [("1", JNull); ("x1", JNull)])
    = (Some [("1", JNull); ("x1", JNull)], ValueError t).
Proof.
  apply (create_fails_on_bad_key "t" "todo" "low" [("1", JNull); ("x1", JNull)]).
  right. left. vm_compute. reflexivity.
Defined.

Example next_id_after_gap :
  _next_id [("3", JNull); ("007", JNull); (" 5 ", JNull)] = Done "8".
Proof. vm_compute. reflexivity. Qed.

Example create_tasks_three :
  odict_keys
    (TasksServer._load_tasks
       (create_tasks [("a", "todo", "low"); ("b", "done", "high");
                      ("c", "todo", "medium")] None))
  = ["1"; "2"; "3"].
Proof. vm_compute. reflexivity. Qed.

Lemma next_id_fails_on_bad_key_witness :
  exists t, _next_id [("1", JNull); ("x1", JNull)] = ValueError t.
Proof.
  refine (proj2 (next_id_fails_on_bad_key [("1", JNull); ("x1", JNull)] _) _).
  - constructor; [split|constructor; [split|constructor]].
    + unfold max_str_digits. simpl. lia.
    + intros n Hn. vm_compute in Hn. injection Hn as <-.
      vm_compute. reflexivity.
    + unfold max_str_digits. simpl. lia.
    + intros n Hn. vm_compute in Hn. discriminate Hn.
  - right. left. vm_compute. reflexivity.
Defined.
